(** * Stock accounting of the load-test mock servers

    A shallow embedding of [load-test/mock_server.py] and
    [load-test/enhanced_mock_server.py].

    - The module-level globals of each script are a record ([state]).
    - A handler ([do_POST], [do_GET]) is a computation over that record
      that may raise; what the environment contributes to one invocation
      (the request path, the clock readings, a raised error) is the [call].
    - Both scripts run [HTTPServer], which serves one request at a time:
      a run of the program is [serve], the handler applied to the calls one
      after the other.
    - The blocks under [stock_lock] are atomic.  To cover any overlap of
      handlers, the invariants of the enhanced server are also proved for
      every sequence of these blocks ([Enhanced.exec]), of which a handler
      run is one instance ([do_POST_trace]). *)

From Stdlib Require Import ZArith NArith Nnat String Ascii List Bool Lia.
From Stdlib Require Import DecimalFacts DecimalPos DecimalN DecimalString.
From Stdlib Require Import Floats.SpecFloat.
Import ListNotations.

Local Open Scope string_scope.
Local Open Scope Z_scope.

(** ** Python values and operators used by the servers *)

Module Py.

(** The exceptions the handlers can meet: [OSError] stands for whatever
    the environment raises (socket, console, sleep); the other two are
    raised by Python's arithmetic and by [min]/[max]. *)
Inductive exn : Set := OSError | ZeroDivisionError | ValueError.

Inductive result (A : Type) : Type :=
| Ok (a : A)
| Raise (e : exn).
Arguments Ok {A} a.
Arguments Raise {A} e.

Definition rbind {A B} (r : result A) (k : A -> result B) : result B :=
  match r with
  | Ok a => k a
  | Raise e => Raise e
  end.

(** Python floats are IEEE 754 binary64 numbers. *)
Definition float : Set := spec_float.
Definition prec : Z := 53.
Definition emax : Z := 1024.

(** [float(z)]: the integer rounded to the nearest binary64. *)
Definition float_of_int (z : Z) : float := binary_normalize prec emax z 0 false.

(** The integer itself, as an unrounded mantissa with exponent 0. *)
Definition exact_int (z : Z) : float :=
  match z with
  | Z0 => S754_zero false
  | Zpos p => S754_finite false p 0
  | Zneg p => S754_finite true p 0
  end.

Definition fadd : float -> float -> float := SFadd prec emax.
Definition fsub : float -> float -> float := SFsub prec emax.
Definition fmul : float -> float -> float := SFmul prec emax.
Definition fzero : float := S754_zero false.

Definition is_zero (x : float) : bool :=
  match x with
  | S754_zero _ => true
  | _ => false
  end.

(** [x < y] on floats. *)
Definition flt (x y : float) : bool := SFltb x y.
(** [x > 0] for a float [x] and the int literal [0]. *)
Definition fpositive (x : float) : bool := flt fzero x.

(** [a / b] on two ints: the correctly rounded quotient, or
    [ZeroDivisionError].  (CPython raises [OverflowError] when the
    quotient exceeds the binary64 range; the counters of the servers stay
    far below that, and the model returns an infinity there.) *)
Definition int_truediv (a b : Z) : result float :=
  if b =? 0 then Raise ZeroDivisionError
  else Ok (SFdiv prec emax (exact_int a) (exact_int b)).

(** [x / n] for a float [x] and an int [n]: [n] is converted to a float,
    which is zero exactly when [n] is. *)
Definition float_div_int (x : float) (n : Z) : result float :=
  if n =? 0 then Raise ZeroDivisionError
  else Ok (SFdiv prec emax x (float_of_int n)).

(** [n / y] for an int [n] and a float [y]; as for [int_truediv], an int
    beyond the binary64 range gives an infinity here and an
    [OverflowError] in CPython. *)
Definition int_div_float (n : Z) (y : float) : result float :=
  if is_zero y then Raise ZeroDivisionError
  else Ok (SFdiv prec emax (float_of_int n) y).

(** [len(xs)]. *)
Definition len {A} (xs : list A) : Z := Z.of_nat (List.length xs).

(** Truth value of a list: non-empty. *)
Definition truthy {A} (xs : list A) : bool :=
  match xs with
  | [] => false
  | _ :: _ => true
  end.

(** [sum(xs)] on floats, as the left-to-right sum from 0 (interpreters
    from 3.12 on compensate the rounding errors of the partial sums; no
    result below depends on the value of a non-empty sum). *)
Definition sum (xs : list float) : float := fold_left fadd xs fzero.

(** [min(xs)] and [max(xs)]: [ValueError] on an empty sequence, otherwise
    the first element that no later one beats. *)
Definition min (xs : list float) : result float :=
  match xs with
  | [] => Raise ValueError
  | x :: rest => Ok (fold_left (fun m y => if flt y m then y else m) rest x)
  end.

Definition max (xs : list float) : result float :=
  match xs with
  | [] => Raise ValueError
  | x :: rest => Ok (fold_left (fun m y => if flt m y then y else m) rest x)
  end.

(** *** Format specification [05d] *)

Fixpoint zeros (k : nat) : string :=
  match k with
  | O => EmptyString
  | S k' => String "0" (zeros k')
  end.

(** Left padding with ['0'] up to a minimum width; longer strings are
    left as they are. *)
Definition zfill (width : nat) (s : string) : string :=
  zeros (width - String.length s) ++ s.

Definition decimal (n : N) : string := NilZero.string_of_uint (N.to_uint n).

(** [format(n, "05d")]: sign-aware zero padding to at least 5 characters. *)
Definition format_05d (n : Z) : string :=
  match n with
  | Zneg p => "-" ++ zfill 4 (decimal (Npos p))
  | _ => zfill 5 (decimal (Z.to_N n))
  end.

(** *** JSON-serialisable values *)

#[warnings="-register-all"]
Inductive json : Set :=
| JInt (z : Z)
| JFloat (x : float)
| JStr (s : string)
| JObj (items : list (string * json)).

(** A dict literal, keys in insertion order (the order [json.dumps]
    writes them in). *)
Definition dict : Set := list (string * json).

Fixpoint lookup (k : string) (d : dict) : option json :=
  match d with
  | [] => None
  | (k', v) :: d' => if String.eqb k k' then Some v else lookup k d'
  end.

Definition keys (d : dict) : list string := map fst d.

(** [d[k1][k2]] for a dict of dicts. *)
Definition lookup2 (k1 k2 : string) (d : dict) : option json :=
  match lookup k1 d with
  | Some (JObj inner) => lookup k2 inner
  | _ => None
  end.

End Py.
Import Py.

(** ** Requests, responses and the handler monad *)

(** What a handler writes to the client: the status line, the headers and
    the JSON document (before [json.dumps(...).encode()]), if any.
    [headers] lists the headers the handler adds with [send_header]; the
    [Server] and [Date] headers that [send_response] writes on its own on
    every reply are the framework's and are not listed. *)
Record http_response : Set := {
  status_code : Z;
  headers : list (string * string);
  body : option dict
}.

Definition json_headers : list (string * string) :=
  [("Content-Type", "application/json")].

(** The steps of a handler at which the environment may raise. *)
Inductive fault_point : Set :=
| AtSleep   (* time.sleep(0.001) *)
| AtPrint   (* the progress print inside the critical section *)
| AtSend.   (* send_response / end_headers / wfile.write *)

Definition fault_point_eqb (a b : fault_point) : bool :=
  match a, b with
  | AtSleep, AtSleep | AtPrint, AtPrint | AtSend, AtSend => true
  | _, _ => false
  end.

(** A point in time as [datetime.now()] returns it. *)
Definition datetime : Set := Z.

(** One handler invocation as the environment determines it: the request
    path, the readings of the clocks in the order the handler takes them,
    and the step (if any) at which the environment raises. *)
Record call : Set := {
  path : string;
  request_start : float;   (* time.time() on entry *)
  timestamp : datetime;    (* datetime.now() in the critical section *)
  print_time : float;      (* time.time() of the progress line *)
  finish_time : float;     (* time.time() once the order is placed *)
  fault : option fault_point
}.

Definition strikes (c : call) (p : fault_point) : bool :=
  match fault c with
  | Some q => fault_point_eqb p q
  | None => false
  end.

(** What a POST handler leaves behind when it returns: the order id it
    assigned (its local [order_id]), if it reached that line, and the
    response it wrote. *)
Record outcome : Set := {
  assigned : option string;
  reply : http_response
}.

(** Computations over the globals [St] that may raise; a raise keeps the
    mutations done so far. *)
Definition M (St A : Type) : Type := St -> result A * St.

Definition ret {St A} (a : A) : M St A := fun s => (Ok a, s).

Definition bind {St A B} (m : M St A) (k : A -> M St B) : M St B :=
  fun s =>
    match m s with
    | (Ok a, s') => k a s'
    | (Raise e, s') => (Raise e, s')
    end.

Definition raise {St A} (e : exn) : M St A := fun s => (Raise e, s).
Definition gets {St A} (f : St -> A) : M St A := fun s => (Ok (f s), s).
Definition modify {St} (f : St -> St) : M St unit := fun s => (Ok tt, f s).
Definition lift {St A} (r : result A) : M St A := fun s => (r, s).

(** [try: body finally: fin]: [fin] runs on both exits of [body]; an
    exception of [fin] replaces the result of [body]. *)
Definition try_finally {St A} (body : M St A) (fin : M St unit) : M St A :=
  fun s =>
    let (r, s1) := body s in
    match fin s1 with
    | (Ok _, s2) => (r, s2)
    | (Raise e, s2) => (Raise e, s2)
    end.

Declare Scope py_scope.
Delimit Scope py_scope with py.
Notation "x <- c1 ;; c2" := (bind c1 (fun x => c2))
  (at level 61, c1 at next level, right associativity) : py_scope.
Notation "' pat <- c1 ;; c2" := (bind c1 (fun x => match x with pat => c2 end))
  (at level 61, pat pattern, c1 at next level, right associativity) : py_scope.
Notation "c1 ;; c2" := (bind c1 (fun _ => c2))
  (at level 61, right associativity) : py_scope.
Notation "x <-? r ;; k" := (rbind r (fun x => k))
  (at level 61, r at next level, right associativity) : py_scope.
Local Open Scope py_scope.

(** [time.sleep]. *)
Definition sleep {St} (c : call) : M St unit :=
  if strikes c AtSleep then raise OSError else ret tt.

(** Writing the response to the client. *)
Definition send {St} (c : call) (order_id : option string) (r : http_response)
  : M St outcome :=
  if strikes c AtSend then raise OSError
  else ret {| assigned := order_id; reply := r |}.

(** The server hands the requests to the handler one at a time; a handler
    that raises leaves its mutations in the globals and the next request is
    served on them. *)
Fixpoint serve {St} (handler : call -> M St outcome) (cs : list call) (s : St)
  : list (result outcome) * St :=
  match cs with
  | [] => ([], s)
  | c :: cs' =>
      let (r, s1) := handler c s in
      let (rs, s2) := serve handler cs' s1 in
      (r :: rs, s2)
  end.

Definition ORDERS_PATH : string := "/api/v1/orders".
Definition INVENTORY_PREFIX : string := "/api/v1/inventory/products/".
Definition PRODUCT_ID : string := "550e8400-e29b-41d4-a716-446655440001".

(** [f"ORDER-{order_count:05d}"]. *)
Definition order_id_of (order_count : Z) : string :=
  "ORDER-" ++ format_05d order_count.

Definition not_found : http_response :=
  {| status_code := 404; headers := []; body := None |}.

(** ** mock_server.py *)

Module Mock.

(** The module-level globals. *)
Record state : Set := {
  available_stock : Z;
  order_count : Z;
  successful_orders : Z
}.

Definition set_available_stock (v : Z) (s : state) : state :=
  {| available_stock := v;
     order_count := order_count s;
     successful_orders := successful_orders s |}.

Definition set_order_count (v : Z) (s : state) : state :=
  {| available_stock := available_stock s;
     order_count := v;
     successful_orders := successful_orders s |}.

Definition set_successful_orders (v : Z) (s : state) : state :=
  {| available_stock := available_stock s;
     order_count := order_count s;
     successful_orders := v |}.

(** The critical section is the whole body of the [with stock_lock]
    block; the server serves one request at a time, so the lock is always
    free when a handler asks for it. *)
Definition with_stock_lock {A} (m : M state A) : M state A := m.

Definition do_POST (c : call) : M state outcome :=
  if String.eqb (path c) ORDERS_PATH then
    with_stock_lock (
      modify (fun s => set_order_count (order_count s + 1) s) ;;
      order_id <- gets (fun s => order_id_of (order_count s)) ;;
      stock <- gets available_stock ;;
      if stock >? 0 then
        modify (fun s => set_available_stock (available_stock s - 1) s) ;;
        modify (fun s => set_successful_orders (successful_orders s + 1) s) ;;
        let response :=
          [("orderId", JStr order_id);
           ("status", JStr "CONFIRMED");
           ("message", JStr "Order created successfully")] in
        send c (Some order_id)
          {| status_code := 201; headers := json_headers; body := Some response |}
      else
        let response :=
          [("error", JStr "INSUFFICIENT_STOCK");
           ("message", JStr "Insufficient stock for the requested items")] in
        send c (Some order_id)
          {| status_code := 409; headers := json_headers; body := Some response |})
  else
    send c None not_found.

Section Server.
(** The stock the process starts with; the source writes the literal
    [100]. *)
Variable INITIAL_STOCK : Z.

Definition init : state :=
  {| available_stock := INITIAL_STOCK;
     order_count := 0;
     successful_orders := 0 |}.

End Server.

(** The response [do_GET] computes; [reservedStock] is counted from the
    literal [100], whatever stock the process started with. *)
Definition do_GET (path : string) (s : state) : http_response :=
  if String.prefix INVENTORY_PREFIX path then
    let response :=
      [("productId", JStr PRODUCT_ID);
       ("availableStock", JInt (available_stock s));
       ("reservedStock", JInt (100 - available_stock s));
       ("totalOrders", JInt (order_count s));
       ("successfulOrders", JInt (successful_orders s))] in
    {| status_code := 200; headers := json_headers; body := Some response |}
  else not_found.

(** The failed count of the shutdown summary: [order_count - successful_orders]. *)
Definition failed (s : state) : Z := order_count s - successful_orders s.

End Mock.

(** ** enhanced_mock_server.py *)

Module Enhanced.

(** One progress line on the console, by the values it shows. *)
Record progress_line : Set := {
  shown_time : datetime;
  shown_orders : Z;
  shown_success : Z;
  shown_failed : Z;
  shown_stock : Z;
  shown_rps : json;
  shown_concurrent : Z
}.

(** The module-level globals, and the console the process prints to. *)
Record state : Set := {
  available_stock : Z;
  order_count : Z;
  successful_orders : Z;
  failed_orders : Z;
  concurrent_requests : Z;
  max_concurrent : Z;
  start_time : float;
  response_times : list float;
  order_timestamps : list datetime;
  console : list progress_line
}.

Definition set_available_stock (v : Z) (s : state) : state :=
  {| available_stock := v; order_count := order_count s;
     successful_orders := successful_orders s; failed_orders := failed_orders s;
     concurrent_requests := concurrent_requests s; max_concurrent := max_concurrent s;
     start_time := start_time s; response_times := response_times s;
     order_timestamps := order_timestamps s; console := console s |}.

Definition set_order_count (v : Z) (s : state) : state :=
  {| available_stock := available_stock s; order_count := v;
     successful_orders := successful_orders s; failed_orders := failed_orders s;
     concurrent_requests := concurrent_requests s; max_concurrent := max_concurrent s;
     start_time := start_time s; response_times := response_times s;
     order_timestamps := order_timestamps s; console := console s |}.

Definition set_successful_orders (v : Z) (s : state) : state :=
  {| available_stock := available_stock s; order_count := order_count s;
     successful_orders := v; failed_orders := failed_orders s;
     concurrent_requests := concurrent_requests s; max_concurrent := max_concurrent s;
     start_time := start_time s; response_times := response_times s;
     order_timestamps := order_timestamps s; console := console s |}.

Definition set_failed_orders (v : Z) (s : state) : state :=
  {| available_stock := available_stock s; order_count := order_count s;
     successful_orders := successful_orders s; failed_orders := v;
     concurrent_requests := concurrent_requests s; max_concurrent := max_concurrent s;
     start_time := start_time s; response_times := response_times s;
     order_timestamps := order_timestamps s; console := console s |}.

Definition set_concurrent_requests (v : Z) (s : state) : state :=
  {| available_stock := available_stock s; order_count := order_count s;
     successful_orders := successful_orders s; failed_orders := failed_orders s;
     concurrent_requests := v; max_concurrent := max_concurrent s;
     start_time := start_time s; response_times := response_times s;
     order_timestamps := order_timestamps s; console := console s |}.

Definition set_max_concurrent (v : Z) (s : state) : state :=
  {| available_stock := available_stock s; order_count := order_count s;
     successful_orders := successful_orders s; failed_orders := failed_orders s;
     concurrent_requests := concurrent_requests s; max_concurrent := v;
     start_time := start_time s; response_times := response_times s;
     order_timestamps := order_timestamps s; console := console s |}.

Definition set_response_times (v : list float) (s : state) : state :=
  {| available_stock := available_stock s; order_count := order_count s;
     successful_orders := successful_orders s; failed_orders := failed_orders s;
     concurrent_requests := concurrent_requests s; max_concurrent := max_concurrent s;
     start_time := start_time s; response_times := v;
     order_timestamps := order_timestamps s; console := console s |}.

Definition set_order_timestamps (v : list datetime) (s : state) : state :=
  {| available_stock := available_stock s; order_count := order_count s;
     successful_orders := successful_orders s; failed_orders := failed_orders s;
     concurrent_requests := concurrent_requests s; max_concurrent := max_concurrent s;
     start_time := start_time s; response_times := response_times s;
     order_timestamps := v; console := console s |}.

Definition set_console (v : list progress_line) (s : state) : state :=
  {| available_stock := available_stock s; order_count := order_count s;
     successful_orders := successful_orders s; failed_orders := failed_orders s;
     concurrent_requests := concurrent_requests s; max_concurrent := max_concurrent s;
     start_time := start_time s; response_times := response_times s;
     order_timestamps := order_timestamps s; console := v |}.

(** A [with stock_lock] block: its body is one atomic action. *)
Definition with_stock_lock {A} (m : M state A) : M state A := m.

(** Lines 35-38: the request enters. *)
Definition enter : M state unit :=
  modify (fun s => set_concurrent_requests (concurrent_requests s + 1) s) ;;
  inflight <- gets concurrent_requests ;;
  highest <- gets max_concurrent ;;
  if inflight >? highest then
    modify (fun s => set_max_concurrent (concurrent_requests s) s)
  else ret tt.

(** Lines 92-93: the request leaves. *)
Definition leave : M state unit :=
  modify (fun s => set_concurrent_requests (concurrent_requests s - 1) s).

(** Lines 65-71: the progress line. *)
Definition print_progress (c : call) : M state unit :=
  started <- gets start_time ;;
  let elapsed := fsub (print_time c) started in
  orders <- gets order_count ;;
  rps <- (if fpositive elapsed
          then lift (x <-? int_div_float orders elapsed ;; Ok (JFloat x))
          else ret (JInt 0)) ;;
  if strikes c AtPrint then raise OSError
  else
    modify (fun s =>
      set_console
        (console s ++
           [{| shown_time := timestamp c;
               shown_orders := order_count s;
               shown_success := successful_orders s;
               shown_failed := failed_orders s;
               shown_stock := available_stock s;
               shown_rps := rps;
               shown_concurrent := concurrent_requests s |}]) s).

(** Lines 46-79: the order attempt, the body of the second
    [with stock_lock] block.  It returns the locals [order_id],
    [response] and [status_code]. *)
Definition place_order (c : call) : M state (string * dict * Z) :=
  modify (fun s => set_order_count (order_count s + 1) s) ;;
  order_id <- gets (fun s => order_id_of (order_count s)) ;;
  let timestamp := timestamp c in
  stock <- gets available_stock ;;
  if stock >? 0 then
    modify (fun s => set_available_stock (available_stock s - 1) s) ;;
    modify (fun s => set_successful_orders (successful_orders s + 1) s) ;;
    modify (fun s => set_order_timestamps (order_timestamps s ++ [timestamp]) s) ;;
    remaining <- gets available_stock ;;
    let response :=
      [("orderId", JStr order_id);
       ("status", JStr "CONFIRMED");
       ("message", JStr "Order created successfully");
       ("remainingStock", JInt remaining)] in
    let status_code := 201 in
    successes <- gets successful_orders ;;
    (if successes mod 100 =? 0 then print_progress c else ret tt) ;;
    ret (order_id, response, status_code)
  else
    modify (fun s => set_failed_orders (failed_orders s + 1) s) ;;
    let response :=
      [("error", JStr "INSUFFICIENT_STOCK");
       ("message", JStr "Insufficient stock for the requested items");
       ("orderId", JStr order_id)] in
    let status_code := 409 in
    ret (order_id, response, status_code).

(** Line 82: [response_times.append(response_time)]. *)
Definition record_response_time (response_time : float) : M state unit :=
  modify (fun s => set_response_times (response_times s ++ [response_time]) s).

(** Line 81: the sample of a call, in milliseconds. *)
Definition response_time_of (c : call) : float :=
  fmul (fsub (finish_time c) (request_start c)) (float_of_int 1000).

Definition do_POST (c : call) : M state outcome :=
  with_stock_lock enter ;;
  try_finally
    (if String.eqb (path c) ORDERS_PATH then
       sleep c ;;
       '(order_id, response, status_code) <- with_stock_lock (place_order c) ;;
       let response_time := response_time_of c in
       record_response_time response_time ;;
       send c (Some order_id)
         {| status_code := status_code; headers := json_headers;
            body := Some response |}
     else
       send c None not_found)
    (with_stock_lock leave).

Section Server.
(** The stock the process starts with ([INITIAL_STOCK = 500] in the
    source) and the clock reading at start-up. *)
Variable INITIAL_STOCK : Z.

Definition init (started : float) : state :=
  {| available_stock := INITIAL_STOCK; order_count := 0;
     successful_orders := 0; failed_orders := 0;
     concurrent_requests := 0; max_concurrent := 0;
     start_time := started; response_times := [];
     order_timestamps := []; console := [] |}.

(** The ledger invariant: every unit that left the stock is a successful
    order, and every attempt is a success or a failure. *)
Definition ledger_consistent (s : state) : Prop :=
  available_stock s = INITIAL_STOCK - successful_orders s /\
  order_count s = successful_orders s + failed_orders s.

(** The document served at [/metrics]; [now] is the reading of
    [time.time()]. *)
Definition metrics (now : float) (s : state) : result dict :=
  let total_time := fsub now (start_time s) in
  avg_response_time <-?
    (if truthy (response_times s)
     then x <-? float_div_int (sum (response_times s)) (len (response_times s)) ;;
          Ok (JFloat x)
     else Ok (JInt 0)) ;;
  success_rate <-?
    (if order_count s >? 0
     then q <-? int_truediv (successful_orders s) (order_count s) ;;
          Ok (JFloat (fmul q (float_of_int 100)))
     else Ok (JInt 0)) ;;
  avg_tps <-?
    (if fpositive total_time
     then x <-? int_div_float (order_count s) total_time ;; Ok (JFloat x)
     else Ok (JInt 0)) ;;
  fastest <-?
    (if truthy (response_times s)
     then x <-? min (response_times s) ;; Ok (JFloat x)
     else Ok (JInt 0)) ;;
  slowest <-?
    (if truthy (response_times s)
     then x <-? max (response_times s) ;; Ok (JFloat x)
     else Ok (JInt 0)) ;;
  Ok [("summary",
       JObj [("initialStock", JInt INITIAL_STOCK);
             ("availableStock", JInt (available_stock s));
             ("totalOrders", JInt (order_count s));
             ("successfulOrders", JInt (successful_orders s));
             ("failedOrders", JInt (failed_orders s));
             ("successRate", success_rate);
             ("totalTime", JFloat total_time);
             ("avgTPS", avg_tps);
             ("maxConcurrentRequests", JInt (max_concurrent s))]);
      ("responseTime",
       JObj [("avg", avg_response_time);
             ("min", fastest);
             ("max", slowest);
             ("count", JInt (len (response_times s)))])].

Definition inventory (s : state) : dict :=
  [("productId", JStr PRODUCT_ID);
   ("initialStock", JInt INITIAL_STOCK);
   ("availableStock", JInt (available_stock s));
   ("reservedStock", JInt (INITIAL_STOCK - available_stock s));
   ("totalOrders", JInt (order_count s));
   ("successfulOrders", JInt (successful_orders s));
   ("failedOrders", JInt (failed_orders s))].

(** The response [do_GET] computes, or the exception its arithmetic
    raises.  Writing the response to the client, which the environment can
    make fail, is not part of it, and neither is the [OverflowError] of an
    int beyond the binary64 range (see [int_truediv]). *)
Definition do_GET (path : string) (now : float) (s : state) : result http_response :=
  if String.eqb path "/metrics" then
    document <-? metrics now s ;;
    Ok {| status_code := 200; headers := json_headers; body := Some document |}
  else if String.prefix INVENTORY_PREFIX path then
    Ok {| status_code := 200; headers := json_headers; body := Some (inventory s) |}
  else Ok not_found.
End Server.

(** *** Traces of atomic actions

    [enter], [place_order] and [leave] run under [stock_lock] and
    [list.append] is a single step of the interpreter, so whatever way
    handlers overlap, the globals go through a sequence of these
    actions. *)
Inductive action : Set :=
| AEnter
| APlace (c : call)
| ARecord (response_time : float)
| ALeave.

Definition perform (a : action) (s : state) : state :=
  match a with
  | AEnter => snd (enter s)
  | APlace c => snd (place_order c s)
  | ARecord response_time => snd (record_response_time response_time s)
  | ALeave => snd (leave s)
  end.

(** The states a trace goes through, the starting one first: the
    observation points of a run. *)
Fixpoint states (tr : list action) (s : state) : list state :=
  s :: match tr with
       | [] => []
       | a :: tr' => states tr' (perform a s)
       end.

Definition exec (tr : list action) (s : state) : state :=
  fold_left (fun st a => perform a st) tr s.

Definition is_tracker_action (a : action) : bool :=
  match a with
  | AEnter | ALeave => true
  | _ => false
  end.

Definition is_attempt (a : action) : bool :=
  match a with
  | APlace _ => true
  | _ => false
  end.

(** The actions one run of [do_POST] performs on the globals [s], by the
    exits its [try] block can take. *)
Definition trace_of (c : call) (s : state) : list action :=
  AEnter ::
  (if String.eqb (path c) ORDERS_PATH then
     if strikes c AtSleep then []
     else
       APlace c ::
       match fst (place_order c (perform AEnter s)) with
       | Ok _ => [ARecord (response_time_of c)]
       | Raise _ => []
       end
   else []) ++
  [ALeave].

Definition is_enter (a : action) : bool :=
  match a with
  | AEnter => true
  | _ => false
  end.

Definition is_leave (a : action) : bool :=
  match a with
  | ALeave => true
  | _ => false
  end.

(** An order attempt whose progress print the environment lets through. *)
Definition prints_freely (a : action) : bool :=
  match a with
  | APlace c => negb (strikes c AtPrint)
  | _ => true
  end.

(** *** Shutdown

    Lines 160-169: the summary printed when the server is interrupted, one
    [print] per line, by the values the lines show; [now] is the reading of
    [time.time()].  The console may raise at one of the prints, as it may
    at the progress line: [broken_at] is the number of that print (counted
    from 0), if any, and the lines printed before it stay on the console. *)
Inductive summary_line : Set :=
| FinalResults
| TotalTime (seconds : float)
| TotalOrders (n : Z)
| Successful (n : Z)
| Failed (n : Z)
| FinalStock (n : Z)
| MaxConcurrentRequests (n : Z)
| AverageResponseTime (milliseconds : float).

Definition say (broken_at : option nat) (line : summary_line)
  : M (list summary_line) unit :=
  fun out =>
    match broken_at with
    | Some k =>
        if Nat.eqb k (List.length out) then (Raise OSError, out)
        else (Ok tt, (out ++ [line])%list)
    | None => (Ok tt, (out ++ [line])%list)
    end.

Definition shutdown_summary (now : float) (broken_at : option nat) (s : state)
  : M (list summary_line) unit :=
  say broken_at FinalResults ;;
  say broken_at (TotalTime (fsub now (start_time s))) ;;
  say broken_at (TotalOrders (order_count s)) ;;
  say broken_at (Successful (successful_orders s)) ;;
  say broken_at (Failed (failed_orders s)) ;;
  say broken_at (FinalStock (available_stock s)) ;;
  say broken_at (MaxConcurrentRequests (max_concurrent s)) ;;
  if truthy (response_times s) then
    average <- lift (float_div_int (sum (response_times s))
                                   (len (response_times s))) ;;
    say broken_at (AverageResponseTime average)
  else ret tt.

End Enhanced.

(** ** Observations on runs *)

(** A call that reaches the order attempt and returns normally. *)
Definition places_order (c : call) : Prop :=
  path c = ORDERS_PATH /\ fault c = None.

Definition is_confirmed (r : result outcome) : bool :=
  match r with
  | Ok o =>
      (status_code (reply o) =? 201) &&
      match body (reply o) with
      | Some d =>
          match lookup "status" d with
          | Some (JStr st) => String.eqb st "CONFIRMED"
          | _ => false
          end
      | None => false
      end
  | Raise _ => false
  end.

Definition is_rejected (r : result outcome) : bool :=
  match r with
  | Ok o =>
      (status_code (reply o) =? 409) &&
      match body (reply o) with
      | Some d =>
          match lookup "error" d with
          | Some (JStr e) => String.eqb e "INSUFFICIENT_STOCK"
          | _ => false
          end
      | None => false
      end
  | Raise _ => false
  end.

Definition count {A} (p : A -> bool) (xs : list A) : Z := len (filter p xs).

(** An order request served without incident: accepted at second 10 and
    answered two milliseconds later. *)
Definition sample_order : call :=
  {| path := ORDERS_PATH;
     request_start := float_of_int 10;
     timestamp := 10000000;
     print_time := SFdiv prec emax (float_of_int 10001) (float_of_int 1000);
     finish_time := SFdiv prec emax (float_of_int 10002) (float_of_int 1000);
     fault := None |}.

(** The order id a call was given, if it returned. *)
Definition assigned_id (r : result outcome) : option string :=
  match r with
  | Ok o => assigned o
  | Raise _ => None
  end.

(** A numeral whose first digit is not 0. *)
Definition leading_nonzero (d : Decimal.uint) : Prop :=
  match d with
  | Decimal.Nil | Decimal.D0 _ => False
  | _ => True
  end.

(** The order id and the status code of a call that returned. *)
Definition id_and_status (r : result outcome) : option (option string * Z) :=
  match r with
  | Ok o => Some (assigned o, status_code (reply o))
  | Raise _ => None
  end.

(** The [remainingStock] a reply shows, if any. *)
Definition remaining_of (r : result outcome) : option json :=
  match r with
  | Ok o =>
      match body (reply o) with
      | Some d => lookup "remainingStock" d
      | None => None
      end
  | Raise _ => None
  end.

Definition is_not_found (r : result outcome) : bool :=
  match r with
  | Ok o => status_code (reply o) =? 404
  | Raise _ => false
  end.

(** A call the environment does not disturb. *)
Definition undisturbed (c : call) : Prop := fault c = None.

Definition is_order_call (c : call) : bool := String.eqb (path c) ORDERS_PATH.

(** The globals of the enhanced server after fifteen such orders for a
    stock of ten. *)
Definition sold_out : Enhanced.state :=
  Eval vm_compute in
    snd (serve Enhanced.do_POST (repeat sample_order 15) (Enhanced.init 10 fzero)).

(** The ledgers of the two servers agree: same stock, same counters, the
    failures of the enhanced server being the attempts that did not
    succeed. *)
Definition ledgers_agree (sm : Mock.state) (se : Enhanced.state) : Prop :=
  Mock.available_stock sm = Enhanced.available_stock se /\
  Mock.order_count sm = Enhanced.order_count se /\
  Mock.successful_orders sm = Enhanced.successful_orders se /\
  Enhanced.order_count se =
    Enhanced.successful_orders se + Enhanced.failed_orders se.

(** * Properties *)

Local Open Scope list_scope.

Ltac run_monad :=
  unfold bind, modify, gets, ret, raise, lift, try_finally, sleep, send; simpl.

(** ** The order attempt of enhanced_mock_server.py *)

Lemma fpositive_not_zero (x : float) : fpositive x = true -> is_zero x = false.
Proof.
  destruct x as [sg | sg | | sg m e]; simpl; try reflexivity.
  unfold fpositive, flt, SFltb; simpl; discriminate.
Qed.

Module EnhancedFacts.
Import Enhanced.

(** The progress line touches the console only. *)
Lemma print_progress_frame (c : call) (s : state) :
  let s' := snd (print_progress c s) in
  available_stock s' = available_stock s /\
  order_count s' = order_count s /\
  successful_orders s' = successful_orders s /\
  failed_orders s' = failed_orders s /\
  concurrent_requests s' = concurrent_requests s /\
  max_concurrent s' = max_concurrent s /\
  response_times s' = response_times s /\
  start_time s' = start_time s.
Proof.
  unfold print_progress; run_monad.
  destruct (fpositive _); simpl.
  - destruct (int_div_float _ _); simpl; [destruct (strikes c AtPrint)|];
      simpl; repeat split; reflexivity.
  - destruct (strikes c AtPrint); simpl; repeat split; reflexivity.
Qed.

(** It raises only when the environment does. *)
Lemma print_progress_returns (c : call) (s : state) :
  strikes c AtPrint = false -> fst (print_progress c s) = Ok tt.
Proof.
  intros Hf. unfold print_progress; run_monad.
  destruct (fpositive _) eqn:Hpos; simpl.
  - unfold int_div_float. rewrite (fpositive_not_zero _ Hpos); simpl.
    rewrite Hf. reflexivity.
  - rewrite Hf. reflexivity.
Qed.

Lemma print_progress_raises (c : call) (s : state) :
  strikes c AtPrint = true -> fst (print_progress c s) = Raise OSError.
Proof.
  intros Hf. unfold print_progress; run_monad.
  destruct (fpositive _) eqn:Hpos; simpl.
  - unfold int_div_float. rewrite (fpositive_not_zero _ Hpos); simpl.
    rewrite Hf. reflexivity.
  - rewrite Hf. reflexivity.
Qed.

(** The ledger after an order attempt: the attempt is counted, and either
    one unit is sold or the failure is counted.  Tracker, samples and clock
    are untouched.  This holds on both exits of the section. *)
Lemma place_order_state (c : call) (s : state) :
  let s' := snd (place_order c s) in
  order_count s' = order_count s + 1 /\
  (0 < available_stock s ->
     available_stock s' = available_stock s - 1 /\
     successful_orders s' = successful_orders s + 1 /\
     failed_orders s' = failed_orders s) /\
  (available_stock s <= 0 ->
     available_stock s' = available_stock s /\
     successful_orders s' = successful_orders s /\
     failed_orders s' = failed_orders s + 1) /\
  concurrent_requests s' = concurrent_requests s /\
  max_concurrent s' = max_concurrent s /\
  response_times s' = response_times s /\
  start_time s' = start_time s.
Proof.
  unfold place_order; run_monad.
  destruct (available_stock s >? 0) eqn:Hstock; simpl.
  - apply Z.gtb_lt in Hstock.
    destruct (_ mod 100 =? 0); simpl.
    + match goal with
      | |- context [print_progress c ?st] =>
          pose proof (print_progress_frame c st) as Hframe;
          destruct (print_progress c st) as [[[]|e] s1]
      end; simpl in *;
        destruct Hframe as (H1 & H2 & H3 & H4 & H5 & H6 & H7 & H8);
        rewrite H1, H2, H3, H4, H5, H6, H7, H8;
        repeat split; try reflexivity; lia.
    + repeat split; try reflexivity; lia.
  - assert (available_stock s <= 0)
      by (destruct (Z.gtb_spec (available_stock s) 0); [discriminate | lia]).
    repeat split; try reflexivity; lia.
Qed.

(** A rejected attempt returns the 409 document with the id it drew. *)
Lemma place_order_rejected (c : call) (s : state) :
  available_stock s <= 0 ->
  fst (place_order c s) =
    Ok (order_id_of (order_count s + 1),
        [("error", JStr "INSUFFICIENT_STOCK");
         ("message", JStr "Insufficient stock for the requested items");
         ("orderId", JStr (order_id_of (order_count s + 1)))],
        409).
Proof.
  intros Hstock. unfold place_order; run_monad.
  destruct (Z.gtb_spec (available_stock s) 0); [lia | reflexivity].
Qed.

(** A confirmed attempt returns the 201 document, unless the progress
    line is due and the console raises. *)
Lemma place_order_confirmed (c : call) (s : state) :
  0 < available_stock s ->
  strikes c AtPrint = false ->
  fst (place_order c s) =
    Ok (order_id_of (order_count s + 1),
        [("orderId", JStr (order_id_of (order_count s + 1)));
         ("status", JStr "CONFIRMED");
         ("message", JStr "Order created successfully");
         ("remainingStock", JInt (available_stock s - 1))],
        201).
Proof.
  intros Hstock Hf. unfold place_order; run_monad.
  destruct (Z.gtb_spec (available_stock s) 0); [simpl | lia].
  destruct (_ mod 100 =? 0); simpl; [| reflexivity].
  match goal with
  | |- context [print_progress c ?st] =>
      pose proof (print_progress_returns c st Hf) as Hret;
      destruct (print_progress c st) as [r s1]
  end.
  simpl in Hret; subst r; reflexivity.
Qed.

Lemma enter_eq (s : state) : enter s = (Ok tt, perform AEnter s).
Proof.
  unfold perform, enter; run_monad.
  destruct (_ >? _); reflexivity.
Qed.

Lemma leave_eq (s : state) : leave s = (Ok tt, perform ALeave s).
Proof. reflexivity. Qed.

Lemma record_eq (x : float) (s : state) :
  record_response_time x s = (Ok tt, perform (ARecord x) s).
Proof. reflexivity. Qed.

Lemma place_eq (c : call) (s : state) :
  place_order c s = (fst (place_order c s), perform (APlace c) s).
Proof. unfold perform. destruct (place_order c s); reflexivity. Qed.

(** The globals after a handler run are those after its trace. *)
Lemma do_POST_trace (c : call) (s : state) :
  snd (do_POST c s) = exec (trace_of c s) s.
Proof.
  unfold do_POST, trace_of, with_stock_lock, exec.
  unfold bind at 1. rewrite enter_eq. unfold try_finally.
  destruct (String.eqb (path c) ORDERS_PATH).
  - unfold sleep, bind at 1.
    destruct (strikes c AtSleep).
    + unfold raise. rewrite leave_eq. reflexivity.
    + unfold ret, bind at 1. rewrite place_eq.
      destruct (fst (place_order c (perform AEnter s))) as [[[oid resp] code]|e].
      * unfold bind. rewrite record_eq. unfold send.
        destruct (strikes c AtSend); unfold raise, ret; rewrite leave_eq; reflexivity.
      * rewrite leave_eq. reflexivity.
  - unfold send. destruct (strikes c AtSend); unfold raise, ret;
      rewrite leave_eq; reflexivity.
Qed.

(** What the handler returns for a call that places an order: the response
    built in the critical section, with the id drawn there. *)
Lemma do_POST_placed (c : call) (s : state) :
  places_order c ->
  do_POST c s =
    (Ok {| assigned := Some (order_id_of (order_count s + 1));
           reply :=
             if 0 <? available_stock s then
               {| status_code := 201; headers := json_headers;
                  body := Some
                    [("orderId", JStr (order_id_of (order_count s + 1)));
                     ("status", JStr "CONFIRMED");
                     ("message", JStr "Order created successfully");
                     ("remainingStock", JInt (available_stock s - 1))] |}
             else
               {| status_code := 409; headers := json_headers;
                  body := Some
                    [("error", JStr "INSUFFICIENT_STOCK");
                     ("message", JStr "Insufficient stock for the requested items");
                     ("orderId", JStr (order_id_of (order_count s + 1)))] |} |},
     exec [AEnter; APlace c; ARecord (response_time_of c); ALeave] s).
Proof.
  intros [Hpath Hfault].
  assert (Hstrike : forall p, strikes c p = false)
    by (intros p; unfold strikes; rewrite Hfault; reflexivity).
  assert (Hfst : fst (place_order c (perform AEnter s)) =
                 if 0 <? available_stock s
                 then Ok (order_id_of (order_count s + 1),
                          [("orderId", JStr (order_id_of (order_count s + 1)));
                           ("status", JStr "CONFIRMED");
                           ("message", JStr "Order created successfully");
                           ("remainingStock", JInt (available_stock s - 1))], 201)
                 else Ok (order_id_of (order_count s + 1),
                          [("error", JStr "INSUFFICIENT_STOCK");
                           ("message", JStr "Insufficient stock for the requested items");
                           ("orderId", JStr (order_id_of (order_count s + 1)))], 409)).
  { assert (Hs : available_stock (perform AEnter s) = available_stock s /\
                 order_count (perform AEnter s) = order_count s).
    { unfold perform, enter; run_monad. destruct (_ >? _); split; reflexivity. }
    destruct Hs as [Hs1 Hs2].
    destruct (Z.ltb_spec 0 (available_stock s)).
    - rewrite place_order_confirmed by (rewrite ?Hs1; auto).
      rewrite Hs1, Hs2. reflexivity.
    - rewrite place_order_rejected by (rewrite ?Hs1; auto).
      rewrite Hs2. reflexivity. }
  unfold do_POST, with_stock_lock, exec.
  unfold bind at 1. rewrite enter_eq. unfold try_finally.
  rewrite Hpath, String.eqb_refl.
  unfold sleep, bind at 1. rewrite (Hstrike AtSleep).
  unfold ret, bind at 1. rewrite place_eq, Hfst.
  destruct (0 <? available_stock s); unfold bind; rewrite record_eq;
    unfold send; rewrite (Hstrike AtSend); unfold ret; rewrite leave_eq;
    reflexivity.
Qed.

(** Every action on each group of globals. *)
Lemma perform_enter (s : state) :
  let s' := perform AEnter s in
  concurrent_requests s' = concurrent_requests s + 1 /\
  max_concurrent s' = Z.max (max_concurrent s) (concurrent_requests s + 1) /\
  available_stock s' = available_stock s /\
  order_count s' = order_count s /\
  successful_orders s' = successful_orders s /\
  failed_orders s' = failed_orders s /\
  response_times s' = response_times s.
Proof.
  unfold perform, enter; run_monad.
  destruct (Z.gtb_spec (concurrent_requests s + 1) (max_concurrent s)); simpl;
    repeat split; try reflexivity; lia.
Qed.

Lemma perform_leave (s : state) :
  let s' := perform ALeave s in
  concurrent_requests s' = concurrent_requests s - 1 /\
  max_concurrent s' = max_concurrent s /\
  available_stock s' = available_stock s /\
  order_count s' = order_count s /\
  successful_orders s' = successful_orders s /\
  failed_orders s' = failed_orders s /\
  response_times s' = response_times s.
Proof. simpl. repeat split; reflexivity. Qed.

Lemma perform_record (x : float) (s : state) :
  let s' := perform (ARecord x) s in
  concurrent_requests s' = concurrent_requests s /\
  max_concurrent s' = max_concurrent s /\
  available_stock s' = available_stock s /\
  order_count s' = order_count s /\
  successful_orders s' = successful_orders s /\
  failed_orders s' = failed_orders s /\
  response_times s' = (response_times s ++ [x])%list.
Proof. simpl. repeat split; reflexivity. Qed.

End EnhancedFacts.

(** ** Serving a list of calls *)

Section Serve.
Context {St : Type} (handler : call -> M St outcome).

Lemma serve_fst_cons (c : call) (cs : list call) (s : St) :
  fst (serve handler (c :: cs) s) =
  fst (handler c s) :: fst (serve handler cs (snd (handler c s))).
Proof.
  simpl. destruct (handler c s) as [r s1]; simpl.
  destruct (serve handler cs s1); reflexivity.
Qed.

Lemma serve_snd_cons (c : call) (cs : list call) (s : St) :
  snd (serve handler (c :: cs) s) = snd (serve handler cs (snd (handler c s))).
Proof.
  simpl. destruct (handler c s) as [r s1]; simpl.
  destruct (serve handler cs s1); reflexivity.
Qed.

Lemma serve_length (cs : list call) (s : St) :
  List.length (fst (serve handler cs s)) = List.length cs.
Proof.
  revert s; induction cs as [|c cs IH]; intros s; [reflexivity|].
  rewrite serve_fst_cons; simpl. now rewrite IH.
Qed.

(** A property of the globals that the handler keeps on the calls of a
    class holds after any number of such calls. *)
Lemma serve_invariant (Q : call -> Prop) (P : St -> Prop) :
  (forall c s, Q c -> P s -> P (snd (handler c s))) ->
  forall cs s, Forall Q cs -> P s -> P (snd (serve handler cs s)).
Proof.
  intros Hstep cs; induction cs as [|c cs IH]; intros s Hcs Hs; [exact Hs|].
  inversion Hcs as [|? ? Hc Hrest]; subst.
  rewrite serve_snd_cons. apply IH; [exact Hrest | apply Hstep; assumption].
Qed.

End Serve.

(** ** Ledger and tracker invariants of enhanced_mock_server.py *)

Module EnhancedInvariants.
Import Enhanced EnhancedFacts.

Lemma exec_app (tr1 tr2 : list action) (s : state) :
  exec (tr1 ++ tr2) s = exec tr2 (exec tr1 s).
Proof. apply fold_left_app. Qed.

Lemma exec_invariant (P : state -> Prop) :
  (forall a s, P s -> P (perform a s)) ->
  forall tr s, P s -> P (exec tr s).
Proof.
  intros Hstep tr; induction tr as [|a tr IH]; intros s Hs; [exact Hs|].
  apply IH, Hstep, Hs.
Qed.

(** Serving calls one after another is one long trace. *)
Lemma serve_is_trace (cs : list call) (s : state) :
  exists tr, snd (serve do_POST cs s) = exec tr s.
Proof.
  revert s; induction cs as [|c cs IH]; intros s.
  - exists []. reflexivity.
  - rewrite serve_snd_cons, do_POST_trace.
    destruct (IH (exec (trace_of c s) s)) as [tr Htr].
    exists (trace_of c s ++ tr). rewrite exec_app. exact Htr.
Qed.

Lemma perform_consistent (S : Z) (a : action) (s : state) :
  ledger_consistent S s -> ledger_consistent S (perform a s).
Proof.
  unfold ledger_consistent. intros [Hstock Htotal].
  destruct a as [|c|x|].
  - destruct (perform_enter s) as (_ & _ & H1 & H2 & H3 & H4 & _).
    rewrite H1, H2, H3, H4. auto.
  - unfold perform.
    destruct (place_order_state c s) as (Hcount & Hsold & Hout & _).
    destruct (Z.lt_ge_cases 0 (available_stock s)) as [Hpos | Hnone].
    + destruct (Hsold Hpos) as (H1 & H2 & H3). rewrite Hcount, H1, H2, H3. lia.
    + destruct (Hout Hnone) as (H1 & H2 & H3). rewrite Hcount, H1, H2, H3. lia.
  - simpl. auto.
  - simpl. auto.
Qed.

Lemma perform_tracker (a : action) (s : state) :
  max_concurrent s <= max_concurrent (perform a s) /\
  (concurrent_requests s <= max_concurrent s ->
   concurrent_requests (perform a s) <= max_concurrent (perform a s)).
Proof.
  destruct a as [|c|x|].
  - destruct (perform_enter s) as (H1 & H2 & _). rewrite H1, H2. lia.
  - unfold perform.
    destruct (place_order_state c s) as (_ & _ & _ & H1 & H2 & _).
    rewrite H1, H2. lia.
  - simpl. lia.
  - simpl. lia.
Qed.

Lemma exec_untracked (mid : list action) (s : state) :
  forallb (fun a => negb (is_tracker_action a)) mid = true ->
  concurrent_requests (exec mid s) = concurrent_requests s /\
  max_concurrent (exec mid s) = max_concurrent s.
Proof.
  revert s; induction mid as [|a mid IH]; intros s Hmid; [split; reflexivity|].
  simpl in Hmid. apply andb_prop in Hmid as [Ha Hmid].
  change (exec (a :: mid) s) with (exec mid (perform a s)).
  destruct (IH (perform a s) Hmid) as [H1 H2]. rewrite H1, H2.
  destruct a as [|c|x|]; try discriminate.
  - unfold perform.
    destruct (place_order_state c s) as (_ & _ & _ & H3 & H4 & _). auto.
  - simpl. auto.
Qed.

(** The body of the [try] block never touches the tracker. *)
Lemma trace_of_shape (c : call) (s : state) :
  exists mid,
    trace_of c s = AEnter :: mid ++ [ALeave] /\
    forallb (fun a => negb (is_tracker_action a)) mid = true.
Proof.
  unfold trace_of.
  destruct (String.eqb (path c) ORDERS_PATH); [|exists []; split; reflexivity].
  destruct (strikes c AtSleep); [exists []; split; reflexivity|].
  destruct (fst (place_order c (perform AEnter s))).
  - exists [APlace c; ARecord (response_time_of c)]. split; reflexivity.
  - exists [APlace c]. split; reflexivity.
Qed.

(** C2: after every order attempt, however many came before and however
    the handlers that made them overlapped, faulted or not,
    [available_stock = INITIAL_STOCK - successful_orders] and
    [order_count = successful_orders + failed_orders]: this holds in every
    state a trace of atomic actions reaches from the initial globals, and so
    after every list of calls served. *)
Theorem ledger_invariant (S : Z) (started : float) :
  (forall tr : list action,
     let s := exec tr (init S started) in
     available_stock s = S - successful_orders s /\
     order_count s = successful_orders s + failed_orders s) /\
  (forall cs : list call,
     let s := snd (serve do_POST cs (init S started)) in
     available_stock s = S - successful_orders s /\
     order_count s = successful_orders s + failed_orders s).
Proof.
  assert (Htr : forall tr, ledger_consistent S (exec tr (init S started))).
  { intros tr. apply exec_invariant.
    - intros a s. apply perform_consistent.
    - split; simpl; lia. }
  split.
  - intros tr. exact (Htr tr).
  - intros cs. cbv zeta.
    destruct (serve_is_trace cs (init S started)) as [tr ->]. exact (Htr tr).
Qed.

(** C4: whatever the call (any path, and a fault at the sleep, at the
    progress print or at the send), [do_POST] leaves [concurrent_requests]
    as it found it: its run on the globals is one [enter], actions that do
    not touch the tracker, and one [leave], also when the handler raises. *)
Theorem inflight_released_on_every_exit (c : call) (s : state) :
  let s' := snd (do_POST c s) in
  concurrent_requests s' = concurrent_requests s /\
  max_concurrent s' = Z.max (max_concurrent s) (concurrent_requests s + 1) /\
  exists mid : list action,
    s' = exec (AEnter :: mid ++ [ALeave]) s /\
    forallb (fun a => negb (is_tracker_action a)) mid = true /\
    concurrent_requests (exec (AEnter :: mid) s) = concurrent_requests s + 1.
Proof.
  cbv zeta. rewrite do_POST_trace.
  destruct (trace_of_shape c s) as (mid & Hshape & Hmid). rewrite Hshape.
  assert (Hin : exec (AEnter :: mid) s = exec mid (perform AEnter s))
    by reflexivity.
  assert (Hall : exec (AEnter :: mid ++ [ALeave]) s =
                 perform ALeave (exec mid (perform AEnter s))).
  { change (AEnter :: mid ++ [ALeave]) with ((AEnter :: mid) ++ [ALeave]).
    rewrite exec_app. reflexivity. }
  destruct (exec_untracked mid (perform AEnter s) Hmid) as [Hc Hm].
  destruct (perform_enter s) as (He1 & He2 & _).
  destruct (perform_leave (exec mid (perform AEnter s))) as (Hl1 & Hl2 & _).
  split; [rewrite Hall, Hl1, Hc, He1; lia|].
  split; [rewrite Hall, Hl2, Hm, He2; reflexivity|].
  exists mid. split; [reflexivity|]. split; [exact Hmid|].
  rewrite Hin, Hc, He1. reflexivity.
Qed.

(** The handler does raise when the response cannot be written; the
    previous theorem covers this exit. *)
Lemma do_POST_send_fault (c : call) (s : state) :
  fault c = Some AtSend -> fst (do_POST c s) = Raise OSError.
Proof.
  intros Hf.
  assert (Hsend : strikes c AtSend = true) by (unfold strikes; rewrite Hf; reflexivity).
  assert (Hsleep : strikes c AtSleep = false) by (unfold strikes; rewrite Hf; reflexivity).
  unfold do_POST, with_stock_lock.
  unfold bind at 1. rewrite enter_eq. unfold try_finally.
  destruct (String.eqb (path c) ORDERS_PATH).
  - unfold sleep, bind at 1. rewrite Hsleep.
    unfold ret, bind at 1. rewrite place_eq.
    destruct (fst (place_order c (perform AEnter s))) as [[[oid resp] code]|e] eqn:Hp.
    + unfold bind. rewrite record_eq. unfold send. rewrite Hsend.
      unfold raise. rewrite leave_eq. reflexivity.
    + rewrite leave_eq. simpl.
      assert (Hprint : strikes c AtPrint = false)
        by (unfold strikes; rewrite Hf; reflexivity).
      destruct (Z.lt_ge_cases 0 (available_stock (perform AEnter s))) as [Hpos|Hpos].
      * rewrite place_order_confirmed in Hp by assumption. discriminate.
      * rewrite place_order_rejected in Hp by assumption. discriminate.
  - unfold send. rewrite Hsend. unfold raise. rewrite leave_eq. reflexivity.
Qed.

(** The states of a trace, from any of them on. *)
Lemma states_from (tr : list action) (s sj : state) (j : nat) :
  nth_error (states tr s) j = Some sj ->
  max_concurrent s <= max_concurrent sj /\
  (concurrent_requests s <= max_concurrent s ->
   concurrent_requests sj <= max_concurrent sj).
Proof.
  revert s j; induction tr as [|a tr IH]; intros s j Hj.
  - destruct j as [|[|j]]; simpl in Hj; try discriminate.
    injection Hj as <-. split; [lia | auto].
  - destruct j as [|j]; simpl in Hj.
    + injection Hj as <-. split; [lia | auto].
    + destruct (IH _ _ Hj) as [Hmax Hinv].
      destruct (perform_tracker a s) as [Hmono Hkeep].
      split; [lia | auto].
Qed.

(** C5: along every trace of atomic actions from the initial globals,
    [max_concurrent] never decreases, and at every observation point it is
    at least every value [concurrent_requests] has held up to then
    (states [i <= j] of the trace, [i = j] included). *)
Theorem max_concurrent_dominates_history
  (S : Z) (started : float) (tr : list action) (i j : nat) (si sj : state) :
  (i <= j)%nat ->
  nth_error (states tr (init S started)) i = Some si ->
  nth_error (states tr (init S started)) j = Some sj ->
  max_concurrent si <= max_concurrent sj /\
  concurrent_requests si <= max_concurrent sj.
Proof.
  assert (Hinit : concurrent_requests (init S started) <=
                  max_concurrent (init S started)) by (simpl; lia).
  generalize dependent (init S started). intros s Hinv.
  revert s Hinv i j; induction tr as [|a tr IH]; intros s Hinv i j Hij Hi Hj.
  - destruct i as [|[|i]]; simpl in Hi; try discriminate.
    destruct j as [|[|j]]; simpl in Hj; try discriminate.
    injection Hi as <-. injection Hj as <-. lia.
  - destruct i as [|i].
    + simpl in Hi. injection Hi as <-.
      destruct (states_from _ _ _ _ Hj) as [Hmax _]. lia.
    + destruct j as [|j]; [lia|].
      simpl in Hi, Hj.
      apply (IH (perform a s)) with (i := i) (j := j); auto; [|lia].
      apply perform_tracker, Hinv.
Qed.

(** A run in which two requests overlap. *)
Lemma max_concurrent_dominates_history_witness :
  let tr := [AEnter; AEnter; ALeave; ALeave] in
  let s0 := init 500 fzero in
  max_concurrent (exec [AEnter; AEnter] s0) <= max_concurrent (exec tr s0) /\
  concurrent_requests (exec [AEnter; AEnter] s0) <= max_concurrent (exec tr s0).
Proof.
  apply (max_concurrent_dominates_history 500 fzero
           [AEnter; AEnter; ALeave; ALeave] 2 4);
    [lia | reflexivity | reflexivity].
Defined.

End EnhancedInvariants.

(** ** Counting outcomes *)

Lemma count_cons {A} (p : A -> bool) (x : A) (xs : list A) :
  count p (x :: xs) = (if p x then 1 else 0) + count p xs.
Proof.
  unfold count, len. cbn [filter].
  destruct (p x); cbn [List.length]; lia.
Qed.

Lemma len_cons {A} (x : A) (xs : list A) : len (x :: xs) = 1 + len xs.
Proof. unfold len. cbn [List.length]. lia. Qed.

Lemma len_nonneg {A} (xs : list A) : 0 <= len xs.
Proof. unfold len. lia. Qed.

Section Counting.
(** Any handler that sells one unit while there is stock and turns the
    order away otherwise. *)
Context {St : Type} (handler : call -> M St outcome) (stock : St -> Z).

Hypothesis sells : forall c s,
  places_order c -> 0 < stock s ->
  is_confirmed (fst (handler c s)) = true /\
  is_rejected (fst (handler c s)) = false /\
  stock (snd (handler c s)) = stock s - 1.

Hypothesis turns_away : forall c s,
  places_order c -> stock s <= 0 ->
  is_confirmed (fst (handler c s)) = false /\
  is_rejected (fst (handler c s)) = true /\
  stock (snd (handler c s)) = stock s.

Lemma serve_counts (cs : list call) (s : St) :
  Forall places_order cs -> 0 <= stock s ->
  count is_confirmed (fst (serve handler cs s)) = Z.min (len cs) (stock s) /\
  count is_rejected (fst (serve handler cs s)) = len cs - Z.min (len cs) (stock s) /\
  stock (snd (serve handler cs s)) = stock s - Z.min (len cs) (stock s).
Proof.
  revert s; induction cs as [|c cs IH]; intros s Hcs Hs.
  - simpl. unfold count, len; simpl. lia.
  - inversion Hcs as [|? ? Hc Hrest]; subst.
    rewrite serve_fst_cons, serve_snd_cons, !count_cons, len_cons.
    pose proof (len_nonneg cs) as Hlen.
    destruct (Z.lt_ge_cases 0 (stock s)) as [Hpos | Hnone].
    + destruct (sells c s Hc Hpos) as (H1 & H2 & H3).
      destruct (IH (snd (handler c s)) Hrest) as (I1 & I2 & I3); [lia|].
      rewrite H1, H2, I1, I2, I3, H3. lia.
    + destruct (turns_away c s Hc Hnone) as (H1 & H2 & H3).
      destruct (IH (snd (handler c s)) Hrest) as (I1 & I2 & I3); [lia|].
      rewrite H1, H2, I1, I2, I3, H3. lia.
Qed.

End Counting.

Module MockFacts.
Import Mock.

(** What the handler of mock_server.py does with a call that places an
    order. *)
Lemma mock_do_POST_placed (c : call) (s : state) :
  places_order c ->
  do_POST c s =
    if 0 <? available_stock s then
      (Ok {| assigned := Some (order_id_of (order_count s + 1));
             reply :=
               {| status_code := 201; headers := json_headers;
                  body := Some
                    [("orderId", JStr (order_id_of (order_count s + 1)));
                     ("status", JStr "CONFIRMED");
                     ("message", JStr "Order created successfully")] |} |},
       {| available_stock := available_stock s - 1;
          order_count := order_count s + 1;
          successful_orders := successful_orders s + 1 |})
    else
      (Ok {| assigned := Some (order_id_of (order_count s + 1));
             reply :=
               {| status_code := 409; headers := json_headers;
                  body := Some
                    [("error", JStr "INSUFFICIENT_STOCK");
                     ("message", JStr "Insufficient stock for the requested items")] |} |},
       {| available_stock := available_stock s;
          order_count := order_count s + 1;
          successful_orders := successful_orders s |}).
Proof.
  intros [Hpath Hfault].
  unfold do_POST, with_stock_lock. rewrite Hpath, String.eqb_refl.
  unfold send, strikes. rewrite Hfault. run_monad.
  rewrite Z.gtb_ltb. destruct (0 <? available_stock s); reflexivity.
Qed.

Lemma mock_sells (c : call) (s : state) :
  places_order c -> 0 < available_stock s ->
  is_confirmed (fst (do_POST c s)) = true /\
  is_rejected (fst (do_POST c s)) = false /\
  available_stock (snd (do_POST c s)) = available_stock s - 1.
Proof.
  intros Hc Hs. rewrite (mock_do_POST_placed c s Hc).
  destruct (Z.ltb_spec 0 (available_stock s)); [|lia].
  repeat split; reflexivity.
Qed.

Lemma mock_turns_away (c : call) (s : state) :
  places_order c -> available_stock s <= 0 ->
  is_confirmed (fst (do_POST c s)) = false /\
  is_rejected (fst (do_POST c s)) = true /\
  available_stock (snd (do_POST c s)) = available_stock s.
Proof.
  intros Hc Hs. rewrite (mock_do_POST_placed c s Hc).
  destruct (Z.ltb_spec 0 (available_stock s)); [lia|].
  repeat split; reflexivity.
Qed.

End MockFacts.

Module EnhancedCounting.
Import Enhanced EnhancedFacts EnhancedInvariants.

Lemma placed_state (c : call) (s : state) :
  let s' := exec [AEnter; APlace c; ARecord (response_time_of c); ALeave] s in
  order_count s' = order_count s + 1 /\
  (0 < available_stock s ->
     available_stock s' = available_stock s - 1 /\
     successful_orders s' = successful_orders s + 1 /\
     failed_orders s' = failed_orders s) /\
  (available_stock s <= 0 ->
     available_stock s' = available_stock s /\
     successful_orders s' = successful_orders s /\
     failed_orders s' = failed_orders s + 1) /\
  response_times s' = response_times s ++ [response_time_of c].
Proof.
  cbv zeta.
  change (exec [AEnter; APlace c; ARecord (response_time_of c); ALeave] s)
    with (perform ALeave
            (perform (ARecord (response_time_of c))
               (perform (APlace c) (perform AEnter s)))).
  destruct (perform_enter s) as (_ & _ & E1 & E2 & E4 & E5 & E3).
  set (s1 := perform AEnter s) in *.
  destruct (place_order_state c s1) as (P1 & P2 & P3 & _ & _ & P4 & _).
  fold (perform (APlace c) s1) in P1, P2, P3, P4.
  set (s2 := perform (APlace c) s1) in *.
  destruct (perform_record (response_time_of c) s2)
    as (_ & _ & R1 & R2 & R4 & R5 & R3).
  set (s3 := perform (ARecord (response_time_of c)) s2) in *.
  destruct (perform_leave s3) as (_ & _ & L1 & L2 & L4 & L5 & L3).
  rewrite L1, L2, L3, L4, L5, R1, R2, R3, R4, R5, P1, P4, E2, E3.
  rewrite E1, E4, E5 in *.
  split; [reflexivity|]. split; [exact P2|]. split; [exact P3 | reflexivity].
Qed.

Lemma enhanced_sells (c : call) (s : state) :
  places_order c -> 0 < available_stock s ->
  is_confirmed (fst (do_POST c s)) = true /\
  is_rejected (fst (do_POST c s)) = false /\
  available_stock (snd (do_POST c s)) = available_stock s - 1.
Proof.
  intros Hc Hs. rewrite (do_POST_placed c s Hc).
  destruct (placed_state c s) as (_ & Hsold & _).
  destruct (Z.ltb_spec 0 (available_stock s)); [|lia].
  repeat split; try reflexivity. apply (Hsold Hs).
Qed.

Lemma enhanced_turns_away (c : call) (s : state) :
  places_order c -> available_stock s <= 0 ->
  is_confirmed (fst (do_POST c s)) = false /\
  is_rejected (fst (do_POST c s)) = true /\
  available_stock (snd (do_POST c s)) = available_stock s.
Proof.
  intros Hc Hs. rewrite (do_POST_placed c s Hc).
  destruct (placed_state c s) as (_ & _ & Hout & _).
  destruct (Z.ltb_spec 0 (available_stock s)); [lia|].
  repeat split; try reflexivity. apply (Hout Hs).
Qed.

(** The counters after a trace with [n] order attempts, whatever else the
    trace does and whichever attempts fault at the progress line. *)
Lemma exec_counts (tr : list action) (s : state) :
  0 <= available_stock s ->
  let n := count is_attempt tr in
  successful_orders (exec tr s) = successful_orders s + Z.min n (available_stock s) /\
  failed_orders (exec tr s) = failed_orders s + (n - Z.min n (available_stock s)) /\
  available_stock (exec tr s) = available_stock s - Z.min n (available_stock s).
Proof.
  revert s; induction tr as [|a tr IH]; intros s Hs; cbv zeta.
  - unfold count, len; simpl. lia.
  - change (exec (a :: tr) s) with (exec tr (perform a s)).
    rewrite count_cons.
    pose proof (len_nonneg (filter is_attempt tr)) as Hn.
    fold (count is_attempt tr) in Hn.
    destruct a as [|c|x|]; simpl is_attempt; cbv iota.
    + destruct (perform_enter s) as (_ & _ & H1 & _ & H3 & H4 & _).
      destruct (IH (perform AEnter s)) as (I1 & I2 & I3); [lia|].
      rewrite I1, I2, I3, H1, H3, H4. lia.
    + unfold perform in *.
      destruct (place_order_state c s) as (_ & Hsold & Hout & _).
      destruct (Z.lt_ge_cases 0 (available_stock s)) as [Hpos | Hnone].
      * destruct (Hsold Hpos) as (H1 & H2 & H3).
        destruct (IH (snd (place_order c s))) as (I1 & I2 & I3); [lia|].
        rewrite I1, I2, I3, H1, H2, H3. lia.
      * destruct (Hout Hnone) as (H1 & H2 & H3).
        destruct (IH (snd (place_order c s))) as (I1 & I2 & I3); [lia|].
        rewrite I1, I2, I3, H1, H2, H3. lia.
    + destruct (IH (perform (ARecord x) s)) as (I1 & I2 & I3); [simpl; lia|].
      rewrite I1, I2, I3. simpl. lia.
    + destruct (IH (perform ALeave s)) as (I1 & I2 & I3); [simpl; lia|].
      rewrite I1, I2, I3. simpl. lia.
Qed.

End EnhancedCounting.

(** ** No overselling *)

Lemma Forall_firstn {A} (P : A -> Prop) (k : nat) (xs : list A) :
  Forall P xs -> Forall P (firstn k xs).
Proof.
  intros H. rewrite <- (firstn_skipn k xs) in H.
  apply Forall_app in H. exact (proj1 H).
Qed.

(** C1: serve [N] calls that place an order, one after the other, from
    [available_stock = INITIAL_STOCK = S]: exactly [min N S] of the
    responses are 201 CONFIRMED and [N - min N S] are 409 REJECTED, on both
    servers, and the stock is not negative after any of the calls.  On the
    enhanced server the same count holds for the counters after any trace
    of atomic actions with [n] order attempts, however the handlers that
    make them overlap. *)
Theorem stock_sold_exactly (S : Z) (started : float) (cs : list call) :
  0 <= S ->
  Forall places_order cs ->
  let N := len cs in
  let enhanced := fst (serve Enhanced.do_POST cs (Enhanced.init S started)) in
  let mock := fst (serve Mock.do_POST cs (Mock.init S)) in
  (count is_confirmed enhanced = Z.min N S /\
   count is_rejected enhanced = N - Z.min N S) /\
  (count is_confirmed mock = Z.min N S /\
   count is_rejected mock = N - Z.min N S) /\
  (forall k : nat,
     0 <= Enhanced.available_stock
            (snd (serve Enhanced.do_POST (firstn k cs) (Enhanced.init S started))) /\
     0 <= Mock.available_stock
            (snd (serve Mock.do_POST (firstn k cs) (Mock.init S)))) /\
  (forall tr : list Enhanced.action,
     let n := count Enhanced.is_attempt tr in
     let s := Enhanced.exec tr (Enhanced.init S started) in
     Enhanced.successful_orders s = Z.min n S /\
     Enhanced.failed_orders s = n - Z.min n S /\
     0 <= Enhanced.available_stock s).
Proof.
  intros HS Hcs. cbv zeta.
  assert (He : forall l, Forall places_order l ->
            count is_confirmed (fst (serve Enhanced.do_POST l (Enhanced.init S started)))
              = Z.min (len l) S /\
            count is_rejected (fst (serve Enhanced.do_POST l (Enhanced.init S started)))
              = len l - Z.min (len l) S /\
            Enhanced.available_stock
              (snd (serve Enhanced.do_POST l (Enhanced.init S started)))
              = S - Z.min (len l) S).
  { intros l Hl.
    apply (serve_counts Enhanced.do_POST Enhanced.available_stock
             EnhancedCounting.enhanced_sells EnhancedCounting.enhanced_turns_away l
             (Enhanced.init S started) Hl HS). }
  assert (Hm : forall l, Forall places_order l ->
            count is_confirmed (fst (serve Mock.do_POST l (Mock.init S)))
              = Z.min (len l) S /\
            count is_rejected (fst (serve Mock.do_POST l (Mock.init S)))
              = len l - Z.min (len l) S /\
            Mock.available_stock (snd (serve Mock.do_POST l (Mock.init S)))
              = S - Z.min (len l) S).
  { intros l Hl.
    apply (serve_counts Mock.do_POST Mock.available_stock
             MockFacts.mock_sells MockFacts.mock_turns_away l (Mock.init S) Hl HS). }
  destruct (He cs Hcs) as (E1 & E2 & _).
  destruct (Hm cs Hcs) as (M1 & M2 & _).
  split; [split; assumption|]. split; [split; assumption|]. split.
  - intros k.
    pose proof (Forall_firstn places_order k cs Hcs) as Hk.
    destruct (He _ Hk) as (_ & _ & E3). destruct (Hm _ Hk) as (_ & _ & M3).
    rewrite E3, M3. pose proof (len_nonneg (firstn k cs)). lia.
  - intros tr.
    destruct (EnhancedCounting.exec_counts tr (Enhanced.init S started) HS)
      as (T1 & T2 & T3).
    rewrite T1, T2, T3. simpl.
    pose proof (len_nonneg (filter Enhanced.is_attempt tr)) as Hn.
    fold (count Enhanced.is_attempt tr) in Hn. lia.
Qed.

(** Three orders for two units: two confirmed, one rejected. *)
Lemma stock_sold_exactly_witness :
  0 <= 2 /\
  Forall places_order [sample_order; sample_order; sample_order] /\
  count is_confirmed
    (fst (serve Enhanced.do_POST [sample_order; sample_order; sample_order]
            (Enhanced.init 2 fzero))) = 2 /\
  count is_rejected
    (fst (serve Enhanced.do_POST [sample_order; sample_order; sample_order]
            (Enhanced.init 2 fzero))) = 1.
Proof.
  assert (H0 : 0 <= 2) by lia.
  assert (H3 : Forall places_order [sample_order; sample_order; sample_order])
    by (repeat constructor).
  split; [exact H0|]. split; [exact H3|].
  exact (proj1 (stock_sold_exactly 2 fzero
                  [sample_order; sample_order; sample_order] H0 H3)).
Defined.

(** ** Order ids *)

Module OrderIds.

Lemma length_append (a b : string) :
  String.length (a ++ b) = (String.length a + String.length b)%nat.
Proof. induction a as [|ch a IH]; simpl; [reflexivity | now rewrite IH]. Qed.

Lemma length_zeros (k : nat) : String.length (zeros k) = k.
Proof. induction k as [|k IH]; simpl; [reflexivity | now rewrite IH]. Qed.

Lemma length_zfill (w : nat) (s : string) :
  String.length (zfill w s) = Nat.max w (String.length s).
Proof. unfold zfill. rewrite length_append, length_zeros. lia. Qed.

Lemma length_string_of_uint (d : Decimal.uint) :
  String.length (NilEmpty.string_of_uint d) = Decimal.nb_digits d.
Proof. induction d; simpl; congruence. Qed.

Lemma to_uint_not_nil (n : N) : N.to_uint n <> Decimal.Nil.
Proof.
  destruct n as [|p]; simpl; [discriminate|].
  intros H. pose proof (DecimalPos.Unsigned.of_to p) as Hp.
  rewrite H in Hp. discriminate.
Qed.

Lemma length_decimal (n : N) :
  String.length (decimal n) = Decimal.nb_digits (N.to_uint n).
Proof.
  unfold decimal, NilZero.string_of_uint.
  pose proof (to_uint_not_nil n) as Hn.
  destruct (N.to_uint n) eqn:E; try congruence;
    rewrite <- length_string_of_uint; reflexivity.
Qed.

Lemma usize_nb_digits (d : Decimal.uint) :
  DecimalPos.Unsigned.usize d = N.of_nat (Decimal.nb_digits d).
Proof.
  induction d; simpl DecimalPos.Unsigned.usize; simpl Decimal.nb_digits;
    rewrite ?IHd; lia.
Qed.

Lemma nzhead_cases (d : Decimal.uint) :
  Decimal.nzhead d = Decimal.Nil \/ leading_nonzero (Decimal.nzhead d).
Proof. induction d; simpl; auto. Qed.

Lemma to_uint_cases (n : N) :
  N.to_uint n = Decimal.zero \/ leading_nonzero (N.to_uint n).
Proof.
  pose proof (DecimalN.Unsigned.to_of (N.to_uint n)) as H.
  rewrite DecimalN.Unsigned.of_to in H. rewrite H. unfold Decimal.unorm.
  destruct (nzhead_cases (N.to_uint n)) as [-> | Hl]; [left; reflexivity|].
  right. destruct (Decimal.nzhead (N.to_uint n)); simpl in *; tauto.
Qed.

Lemma of_lu_bound (d : Decimal.uint) :
  (DecimalPos.Unsigned.of_lu d < 10 ^ DecimalPos.Unsigned.usize d)%N.
Proof.
  induction d; cbn [DecimalPos.Unsigned.of_lu DecimalPos.Unsigned.usize];
    [rewrite N.pow_0_r; lia | rewrite N.pow_succ_r'; lia ..].
Qed.

Lemma of_uint_lower (d : Decimal.uint) :
  leading_nonzero d ->
  (10 ^ N.of_nat (Decimal.nb_digits d - 1) <= N.of_uint d)%N.
Proof.
  unfold N.of_uint.
  destruct d; simpl leading_nonzero; try tauto; intros _;
    cbn [Pos.of_uint]; rewrite DecimalPos.Unsigned.of_uint_acc_rev, usize_nb_digits;
    cbn [Decimal.nb_digits]; rewrite Nat.sub_succ, Nat.sub_0_r; lia.
Qed.

Lemma of_uint_upper (d : Decimal.uint) :
  (N.of_uint d < 10 ^ N.of_nat (Decimal.nb_digits d))%N.
Proof.
  unfold N.of_uint.
  induction d; cbn [Pos.of_uint Decimal.nb_digits];
    rewrite ?Nat2N.inj_succ, ?N.pow_succ_r';
    [cbn; lia | lia | ..];
    rewrite DecimalPos.Unsigned.of_uint_acc_rev;
    pose proof (of_lu_bound (Decimal.rev d)) as Hb;
    rewrite !usize_nb_digits, nb_digits_rev in Hb;
    rewrite usize_nb_digits; lia.
Qed.


Lemma digits_small (n : N) :
  (n < 10 ^ 5)%N -> (Decimal.nb_digits (N.to_uint n) <= 5)%nat.
Proof.
  intros Hn. destruct (to_uint_cases n) as [-> | Hlead]; [simpl; lia|].
  pose proof (of_uint_lower _ Hlead) as Hlow.
  rewrite DecimalN.Unsigned.of_to in Hlow.
  assert (Hlt : (10 ^ N.of_nat (Decimal.nb_digits (N.to_uint n) - 1) < 10 ^ 5)%N) by lia.
  apply N.pow_lt_mono_r_iff in Hlt; lia.
Qed.

Lemma digits_large (n : N) :
  (10 ^ 5 <= n)%N -> (6 <= Decimal.nb_digits (N.to_uint n))%nat.
Proof.
  intros Hn. pose proof (of_uint_upper (N.to_uint n)) as Hup.
  rewrite DecimalN.Unsigned.of_to in Hup.
  assert (Hlt : (10 ^ 5 < 10 ^ N.of_nat (Decimal.nb_digits (N.to_uint n)))%N) by lia.
  apply N.pow_lt_mono_r_iff in Hlt; lia.
Qed.

Lemma format_nonneg (z : Z) :
  0 <= z -> format_05d z = zfill 5 (decimal (Z.to_N z)).
Proof. destruct z; [reflexivity | reflexivity | lia]. Qed.

Lemma length_order_id (z : Z) :
  0 <= z ->
  String.length (order_id_of z) =
  (6 + Nat.max 5 (Decimal.nb_digits (N.to_uint (Z.to_N z))))%nat.
Proof.
  intros Hz. unfold order_id_of.
  rewrite length_append, (format_nonneg z Hz), length_zfill, length_decimal.
  reflexivity.
Qed.

(** Reading a zero-padded numeral back. *)
Lemma uint_of_zeros (k : nat) (s : string) :
  NilEmpty.uint_of_string (zeros k ++ s) =
  option_map (Nat.iter k Decimal.D0) (NilEmpty.uint_of_string s).
Proof.
  induction k as [|k IH].
  - simpl. destruct (NilEmpty.uint_of_string s); reflexivity.
  - cbn [zeros String.append NilEmpty.uint_of_string]. rewrite IH.
    destruct (NilEmpty.uint_of_string s); reflexivity.
Qed.

Lemma of_uint_iter_D0 (k : nat) (d : Decimal.uint) :
  N.of_uint (Nat.iter k Decimal.D0 d) = N.of_uint d.
Proof. induction k as [|k IH]; [reflexivity | exact IH]. Qed.

Lemma read_zfill (w : nat) (n : N) :
  option_map N.of_uint (NilEmpty.uint_of_string (zfill w (decimal n))) = Some n.
Proof.
  unfold zfill. rewrite uint_of_zeros.
  assert (Hd : decimal n = NilEmpty.string_of_uint (N.to_uint n)).
  { unfold decimal, NilZero.string_of_uint.
    pose proof (to_uint_not_nil n).
    destruct (N.to_uint n); congruence. }
  rewrite Hd at 2. rewrite NilEmpty.usu. simpl.
  rewrite of_uint_iter_D0, DecimalN.Unsigned.of_to. reflexivity.
Qed.

Lemma order_id_inj (n m : Z) :
  0 <= n -> 0 <= m -> order_id_of n = order_id_of m -> n = m.
Proof.
  intros Hn Hm H. unfold order_id_of in H. simpl in H.
  injection H as H.
  rewrite (format_nonneg n Hn), (format_nonneg m Hm) in H.
  pose proof (read_zfill 5 (Z.to_N n)) as Rn.
  pose proof (read_zfill 5 (Z.to_N m)) as Rm.
  rewrite H in Rn. rewrite Rn in Rm. injection Rm as Rm. lia.
Qed.

End OrderIds.

Section Numbering.
(** Any handler that draws the next id from a counter. *)
Context {St : Type} (handler : call -> M St outcome) (counter : St -> Z).

Hypothesis draws : forall c s,
  places_order c ->
  assigned_id (fst (handler c s)) = Some (order_id_of (counter s + 1)) /\
  counter (snd (handler c s)) = counter s + 1.

Lemma serve_ids (cs : list call) (s : St) (n : nat) :
  Forall places_order cs ->
  counter s = Z.of_nat n ->
  map assigned_id (fst (serve handler cs s)) =
  map (fun k => Some (order_id_of (Z.of_nat k))) (seq (S n) (List.length cs)).
Proof.
  revert s n; induction cs as [|c cs IH]; intros s n Hcs Hn; [reflexivity|].
  inversion Hcs as [|? ? Hc Hrest]; subst.
  destruct (draws c s Hc) as [Hid Hnext].
  rewrite serve_fst_cons. cbn [map List.length seq].
  rewrite Hid, Hn. f_equal.
  - do 2 f_equal. lia.
  - apply IH; [exact Hrest | rewrite Hnext, Hn; lia].
Qed.

End Numbering.

Lemma enhanced_draws (c : call) (s : Enhanced.state) :
  places_order c ->
  assigned_id (fst (Enhanced.do_POST c s)) =
    Some (order_id_of (Enhanced.order_count s + 1)) /\
  Enhanced.order_count (snd (Enhanced.do_POST c s)) = Enhanced.order_count s + 1.
Proof.
  intros Hc. rewrite (EnhancedFacts.do_POST_placed c s Hc).
  destruct (EnhancedCounting.placed_state c s) as (Hcount & _).
  split; [reflexivity | exact Hcount].
Qed.

Lemma mock_draws (c : call) (s : Mock.state) :
  places_order c ->
  assigned_id (fst (Mock.do_POST c s)) =
    Some (order_id_of (Mock.order_count s + 1)) /\
  Mock.order_count (snd (Mock.do_POST c s)) = Mock.order_count s + 1.
Proof.
  intros Hc. rewrite (MockFacts.mock_do_POST_placed c s Hc).
  destruct (0 <? Mock.available_stock s); split; reflexivity.
Qed.

(** C6 as stated fails: the ids do not all have the same width.  The
    100000th attempt is numbered with six digits. *)
Lemma order_id_width_not_fixed :
  order_id_of 1 = "ORDER-00001"%string /\
  order_id_of 100000 = "ORDER-100000"%string /\
  String.length (order_id_of 100000) <> String.length (order_id_of 1).
Proof. repeat split. vm_compute. discriminate. Qed.

(** C6 (amended): the calls that place an order are given the ids
    ORDER-<k> for k = 1, 2, 3, ... in the order they are served, on both
    servers; k is written in decimal, zero-padded to at least five digits;
    ids of distinct attempt numbers are distinct; the id is 11 characters
    wide for every attempt number up to 99999 and wider from 100000 on. *)
Theorem order_ids_sequential_and_distinct
  (S : Z) (started : float) (cs : list call) :
  Forall places_order cs ->
  map assigned_id (fst (serve Enhanced.do_POST cs (Enhanced.init S started))) =
    map (fun k => Some (order_id_of (Z.of_nat k))) (seq 1 (List.length cs)) /\
  map assigned_id (fst (serve Mock.do_POST cs (Mock.init S))) =
    map (fun k => Some (order_id_of (Z.of_nat k))) (seq 1 (List.length cs)) /\
  (forall n : Z, 0 <= n ->
     order_id_of n = ("ORDER-" ++ zfill 5 (decimal (Z.to_N n)))%string) /\
  (forall n m : Z, 0 <= n -> 0 <= m -> n <> m -> order_id_of n <> order_id_of m) /\
  (forall n : Z, 0 <= n <= 99999 -> String.length (order_id_of n) = 11%nat) /\
  (forall n : Z, 100000 <= n -> (11 < String.length (order_id_of n))%nat).
Proof.
  intros Hcs. repeat split.
  - apply (serve_ids Enhanced.do_POST Enhanced.order_count enhanced_draws);
      [exact Hcs | reflexivity].
  - apply (serve_ids Mock.do_POST Mock.order_count mock_draws);
      [exact Hcs | reflexivity].
  - intros n Hn. unfold order_id_of. now rewrite OrderIds.format_nonneg.
  - intros n m Hn Hm Hneq Heq. apply Hneq. now apply OrderIds.order_id_inj.
  - intros n Hn. rewrite OrderIds.length_order_id by lia.
    assert (Hs : (Decimal.nb_digits (N.to_uint (Z.to_N n)) <= 5)%nat).
    { apply OrderIds.digits_small. change (10 ^ 5)%N with 100000%N. lia. }
    lia.
  - intros n Hn. rewrite OrderIds.length_order_id by lia.
    assert (Hs : (6 <= Decimal.nb_digits (N.to_uint (Z.to_N n)))%nat).
    { apply OrderIds.digits_large. change (10 ^ 5)%N with 100000%N. lia. }
    lia.
Qed.

Lemma order_ids_sequential_and_distinct_witness :
  Forall places_order [sample_order; sample_order] /\
  map assigned_id
    (fst (serve Enhanced.do_POST [sample_order; sample_order]
            (Enhanced.init 1 fzero))) =
  [Some "ORDER-00001"%string; Some "ORDER-00002"%string].
Proof.
  assert (H2 : Forall places_order [sample_order; sample_order])
    by (repeat constructor).
  split; [exact H2|].
  exact (proj1 (order_ids_sequential_and_distinct 1 fzero
                  [sample_order; sample_order] H2)).
Defined.

(** ** The two servers side by side *)

Lemma agree_step (c : call) (sm : Mock.state) (se : Enhanced.state) :
  places_order c ->
  ledgers_agree sm se ->
  id_and_status (fst (Mock.do_POST c sm)) =
    id_and_status (fst (Enhanced.do_POST c se)) /\
  (exists id, id_and_status (fst (Mock.do_POST c sm)) = Some (Some id, 201) \/
              id_and_status (fst (Mock.do_POST c sm)) = Some (Some id, 409)) /\
  ledgers_agree (snd (Mock.do_POST c sm)) (snd (Enhanced.do_POST c se)).
Proof.
  intros Hc (Hstock & Hcount & Hsucc & Htotal).
  rewrite (MockFacts.mock_do_POST_placed c sm Hc).
  rewrite (EnhancedFacts.do_POST_placed c se Hc).
  destruct (EnhancedCounting.placed_state c se) as (P1 & P2 & P3 & _).
  unfold ledgers_agree. rewrite Hstock, Hcount.
  destruct (Z.ltb_spec 0 (Enhanced.available_stock se)) as [Hpos | Hnone];
    cbn [fst snd id_and_status assigned reply status_code
         Mock.available_stock Mock.order_count Mock.successful_orders].
  - destruct (P2 Hpos) as (Q1 & Q2 & Q3).
    split; [reflexivity|]. split; [eexists; left; reflexivity|].
    rewrite P1, Q1, Q2, Q3. lia.
  - destruct (P3 Hnone) as (Q1 & Q2 & Q3).
    split; [reflexivity|]. split; [eexists; right; reflexivity|].
    rewrite P1, Q1, Q2, Q3. lia.
Qed.

Lemma agree_serve (cs : list call) (sm : Mock.state) (se : Enhanced.state) :
  Forall places_order cs ->
  ledgers_agree sm se ->
  map id_and_status (fst (serve Mock.do_POST cs sm)) =
    map id_and_status (fst (serve Enhanced.do_POST cs se)) /\
  Forall (fun x => exists id, x = Some (Some id, 201) \/ x = Some (Some id, 409))
    (map id_and_status (fst (serve Mock.do_POST cs sm))) /\
  ledgers_agree (snd (serve Mock.do_POST cs sm)) (snd (serve Enhanced.do_POST cs se)).
Proof.
  revert sm se; induction cs as [|c cs IH]; intros sm se Hcs Hagree.
  - simpl. auto.
  - inversion Hcs as [|? ? Hc Hrest]; subst.
    destruct (agree_step c sm se Hc Hagree) as (Hsame & Hcode & Hnext).
    destruct (IH _ _ Hrest Hnext) as (I1 & I2 & I3).
    rewrite !serve_fst_cons, !serve_snd_cons. cbn [map].
    rewrite Hsame, I1. split; [reflexivity|]. split; [|exact I3].
    constructor; [rewrite <- Hsame; exact Hcode | rewrite <- I1; exact I2].
Qed.

(** C10: serve the same calls placing orders from the same initial stock on
    both servers: call by call they assign the same order id and answer
    with the same status code, 201 or 409, and after every call the failed
    count mock_server.py derives, [order_count - successful_orders], is the
    [failed_orders] counter of enhanced_mock_server.py. *)
Theorem servers_agree (S : Z) (started : float) (cs : list call) :
  Forall places_order cs ->
  map id_and_status (fst (serve Mock.do_POST cs (Mock.init S))) =
    map id_and_status (fst (serve Enhanced.do_POST cs (Enhanced.init S started))) /\
  Forall (fun x => exists id, x = Some (Some id, 201) \/ x = Some (Some id, 409))
    (map id_and_status (fst (serve Mock.do_POST cs (Mock.init S)))) /\
  (forall k : nat,
     Mock.failed (snd (serve Mock.do_POST (firstn k cs) (Mock.init S))) =
     Enhanced.failed_orders
       (snd (serve Enhanced.do_POST (firstn k cs) (Enhanced.init S started)))).
Proof.
  intros Hcs.
  assert (Hinit : ledgers_agree (Mock.init S) (Enhanced.init S started))
    by (repeat split).
  destruct (agree_serve cs _ _ Hcs Hinit) as (H1 & H2 & _).
  split; [exact H1|]. split; [exact H2|].
  intros k.
  destruct (agree_serve (firstn k cs) _ _ (Forall_firstn _ k cs Hcs) Hinit)
    as (_ & _ & (_ & Hcount & Hsucc & Htotal)).
  unfold Mock.failed. lia.
Qed.

Lemma servers_agree_witness :
  Forall places_order [sample_order; sample_order] /\
  map id_and_status (fst (serve Mock.do_POST [sample_order; sample_order] (Mock.init 1))) =
  map id_and_status
    (fst (serve Enhanced.do_POST [sample_order; sample_order] (Enhanced.init 1 fzero))).
Proof.
  assert (H2 : Forall places_order [sample_order; sample_order])
    by (repeat constructor).
  split; [exact H2|].
  exact (proj1 (servers_agree 1 fzero [sample_order; sample_order] H2)).
Defined.

(** ** The metrics snapshot *)

Module MetricsFacts.
Import Enhanced.

Lemma len_nonempty {A} (x : A) (xs : list A) : (len (x :: xs) =? 0) = false.
Proof.
  apply Z.eqb_neq. rewrite len_cons. pose proof (len_nonneg xs). lia.
Qed.

(** The snapshot is total: every division and every [min]/[max] is
    guarded. *)
Lemma metrics_returns (S : Z) (now : float) (s : state) :
  exists avg rate tps fastest slowest,
    metrics S now s =
      Ok [("summary",
           JObj [("initialStock", JInt S);
                 ("availableStock", JInt (available_stock s));
                 ("totalOrders", JInt (order_count s));
                 ("successfulOrders", JInt (successful_orders s));
                 ("failedOrders", JInt (failed_orders s));
                 ("successRate", rate);
                 ("totalTime", JFloat (fsub now (start_time s)));
                 ("avgTPS", tps);
                 ("maxConcurrentRequests", JInt (max_concurrent s))]);
          ("responseTime",
           JObj [("avg", avg);
                 ("min", fastest);
                 ("max", slowest);
                 ("count", JInt (len (response_times s)))])] /\
    (response_times s = [] ->
       avg = JInt 0 /\ fastest = JInt 0 /\ slowest = JInt 0) /\
    (0 < order_count s ->
       exists q, int_truediv (successful_orders s) (order_count s) = Ok q /\
                 rate = JFloat (fmul q (float_of_int 100))) /\
    (order_count s <= 0 -> rate = JInt 0).
Proof.
  unfold metrics.
  assert (Havg : exists avg,
    (if truthy (response_times s)
     then x <-? float_div_int (sum (response_times s)) (len (response_times s)) ;;
          Ok (JFloat x)
     else Ok (JInt 0)) = Ok avg /\ (response_times s = [] -> avg = JInt 0)).
  { destruct (response_times s) as [|x xs].
    - eexists; split; [reflexivity | auto].
    - unfold float_div_int. rewrite len_nonempty. cbn [truthy rbind].
      eexists; split; [reflexivity | discriminate]. }
  assert (Hrate : exists rate,
    (if order_count s >? 0
     then q <-? int_truediv (successful_orders s) (order_count s) ;;
          Ok (JFloat (fmul q (float_of_int 100)))
     else Ok (JInt 0)) = Ok rate /\
    (0 < order_count s ->
       exists q, int_truediv (successful_orders s) (order_count s) = Ok q /\
                 rate = JFloat (fmul q (float_of_int 100))) /\
    (order_count s <= 0 -> rate = JInt 0)).
  { destruct (Z.gtb_spec (order_count s) 0) as [Hpos | Hnone].
    - unfold int_truediv.
      destruct (Z.eqb_spec (order_count s) 0) as [Hz | _]; [lia|].
      cbn [rbind]. eexists; split; [reflexivity|]. split; [|lia].
      intros _. eexists; split; reflexivity.
    - eexists; split; [reflexivity|]. split; [lia | auto]. }
  assert (Htps : exists tps,
    (if fpositive (fsub now (start_time s))
     then x <-? int_div_float (order_count s) (fsub now (start_time s)) ;;
          Ok (JFloat x)
     else Ok (JInt 0)) = Ok tps).
  { destruct (fpositive (fsub now (start_time s))) eqn:Hpos.
    - unfold int_div_float. rewrite (fpositive_not_zero _ Hpos).
      cbn [rbind]. eexists; reflexivity.
    - eexists; reflexivity. }
  assert (Hmin : exists fastest,
    (if truthy (response_times s)
     then x <-? min (response_times s) ;; Ok (JFloat x)
     else Ok (JInt 0)) = Ok fastest /\
    (response_times s = [] -> fastest = JInt 0)).
  { destruct (response_times s) as [|x xs].
    - eexists; split; [reflexivity | auto].
    - cbn [truthy min rbind]. eexists; split; [reflexivity | discriminate]. }
  assert (Hmax : exists slowest,
    (if truthy (response_times s)
     then x <-? max (response_times s) ;; Ok (JFloat x)
     else Ok (JInt 0)) = Ok slowest /\
    (response_times s = [] -> slowest = JInt 0)).
  { destruct (response_times s) as [|x xs].
    - eexists; split; [reflexivity | auto].
    - cbn [truthy max rbind]. eexists; split; [reflexivity | discriminate]. }
  destruct Havg as (avg & Ea & Ha). destruct Hrate as (rate & Er & Hr1 & Hr2).
  destruct Htps as (tps & Et). destruct Hmin as (fastest & Ef & Hf).
  destruct Hmax as (slowest & Es & Hs).
  exists avg, rate, tps, fastest, slowest.
  cbv zeta. rewrite Ea, Er, Et, Ef, Es. cbn [rbind].
  split; [reflexivity|]. split; [|split; assumption].
  intros Hempty. auto.
Qed.


Lemma do_GET_metrics (S : Z) (now : float) (s : state) (doc : dict) :
  metrics S now s = Ok doc ->
  do_GET S "/metrics" now s =
    Ok {| status_code := 200; headers := json_headers; body := Some doc |}.
Proof. intros H. unfold do_GET. cbn [String.eqb Ascii.eqb Bool.eqb]. rewrite H. reflexivity. Qed.

(** C7: the [successRate] of the metrics snapshot is
    [successful_orders / order_count * 100], computed in binary64 as the
    interpreter does, whenever [order_count > 0], and the integer 0 when
    [order_count = 0]. *)
Theorem success_rate_formula (S : Z) (now : float) (s : state) :
  exists doc : dict,
    do_GET S "/metrics" now s =
      Ok {| status_code := 200; headers := json_headers; body := Some doc |} /\
    (0 < order_count s ->
       exists q : float,
         int_truediv (successful_orders s) (order_count s) = Ok q /\
         lookup2 "summary" "successRate" doc =
           Some (JFloat (fmul q (float_of_int 100)))) /\
    (order_count s = 0 ->
       lookup2 "summary" "successRate" doc = Some (JInt 0)).
Proof.
  destruct (metrics_returns S now s)
    as (avg & rate & tps & fastest & slowest & Hdoc & _ & Hpos & Hzero).
  eexists. split; [apply do_GET_metrics, Hdoc|]. split.
  - intros H. destruct (Hpos H) as (q & Hq & ->). exists q. split; [exact Hq | reflexivity].
  - intros H. rewrite Hzero by lia. reflexivity.
Qed.

(** Ten successes out of fifteen attempts: 66.66666666666666. *)
Lemma success_rate_formula_witness :
  0 < order_count sold_out /\
  exists doc : dict,
    do_GET 10 "/metrics" (float_of_int 60) sold_out =
      Ok {| status_code := 200; headers := json_headers; body := Some doc |} /\
    lookup2 "summary" "successRate" doc =
      Some (JFloat (S754_finite false 4691249611844266 (-46))).
Proof.
  assert (H15 : 0 < order_count sold_out) by (vm_compute; reflexivity).
  split; [exact H15|].
  destruct (success_rate_formula 10 (float_of_int 60) sold_out)
    as (doc & Hget & Hpos & _).
  exists doc. split; [exact Hget|].
  destruct (Hpos H15) as (q & Hq & Hrate).
  vm_compute in Hq. injection Hq as <-. exact Hrate.
Defined.

(** C8: with no response-time sample, the metrics snapshot reports
    [avg], [min] and [max] as 0 and [count] as 0; it returns, although
    the average, the minimum and the maximum of the empty sequence would
    each raise. *)
Theorem empty_samples_report_zero (S : Z) (now : float) (s : state) :
  response_times s = [] ->
  (exists doc : dict,
     do_GET S "/metrics" now s =
       Ok {| status_code := 200; headers := json_headers; body := Some doc |} /\
     lookup "responseTime" doc =
       Some (JObj [("avg", JInt 0); ("min", JInt 0); ("max", JInt 0);
                   ("count", JInt 0)])) /\
  float_div_int (sum (response_times s)) (len (response_times s)) =
    Raise ZeroDivisionError /\
  min (response_times s) = Raise ValueError /\
  max (response_times s) = Raise ValueError.
Proof.
  intros Hempty.
  destruct (metrics_returns S now s)
    as (avg & rate & tps & fastest & slowest & Hdoc & Hzero & _).
  destruct (Hzero Hempty) as (-> & -> & ->).
  split.
  - eexists. split; [apply do_GET_metrics, Hdoc|].
    rewrite Hempty. reflexivity.
  - rewrite Hempty. repeat split.
Qed.

Lemma empty_samples_report_zero_witness :
  response_times (init 500 fzero) = [] /\
  exists doc : dict,
    do_GET 500 "/metrics" (float_of_int 60) (init 500 fzero) =
      Ok {| status_code := 200; headers := json_headers; body := Some doc |} /\
    lookup "responseTime" doc =
      Some (JObj [("avg", JInt 0); ("min", JInt 0); ("max", JInt 0);
                  ("count", JInt 0)]).
Proof.
  assert (H0 : response_times (init 500 fzero) = []) by reflexivity.
  split; [exact H0|].
  exact (proj1 (empty_samples_report_zero 500 (float_of_int 60) (init 500 fzero) H0)).
Defined.

End MetricsFacts.

(** ** Response-time samples *)

Module Samples.
Import Enhanced EnhancedFacts EnhancedInvariants.

Lemma no_print_fault (c : call) :
  fault c <> Some AtPrint -> strikes c AtPrint = false.
Proof.
  unfold strikes. destruct (fault c) as [[]|]; try reflexivity.
  intros H; exfalso; apply H; reflexivity.
Qed.

Lemma place_order_returns (c : call) (s : state) :
  strikes c AtPrint = false -> exists r, fst (place_order c s) = Ok r.
Proof.
  intros Hf. destruct (Z.lt_ge_cases 0 (available_stock s)).
  - rewrite place_order_confirmed by assumption. eexists; reflexivity.
  - rewrite place_order_rejected by assumption. eexists; reflexivity.
Qed.

(** A call either leaves the order count and the samples alone, or counts
    one order and appends its one sample. *)
Lemma do_POST_samples (c : call) (s : state) :
  fault c <> Some AtPrint ->
  let s' := snd (do_POST c s) in
  (order_count s' = order_count s /\ response_times s' = response_times s) \/
  (path c = ORDERS_PATH /\
   order_count s' = order_count s + 1 /\
   response_times s' = response_times s ++ [response_time_of c]).
Proof.
  intros Hf. cbv zeta. rewrite do_POST_trace. unfold trace_of.
  assert (Hidle : order_count (exec [AEnter; ALeave] s) = order_count s /\
                  response_times (exec [AEnter; ALeave] s) = response_times s).
  { change (exec [AEnter; ALeave] s) with (perform ALeave (perform AEnter s)).
    destruct (perform_enter s) as (_ & _ & _ & E1 & _ & _ & E2).
    destruct (perform_leave (perform AEnter s)) as (_ & _ & _ & L1 & _ & _ & L2).
    rewrite L1, L2, E1, E2. split; reflexivity. }
  destruct (String.eqb_spec (path c) ORDERS_PATH) as [Hpath | Hpath];
    [| left; exact Hidle].
  destruct (strikes c AtSleep); [left; exact Hidle|].
  destruct (place_order_returns c (perform AEnter s) (no_print_fault c Hf))
    as [r ->].
  right. destruct (EnhancedCounting.placed_state c s) as (P1 & _ & _ & P2).
  split; [exact Hpath|]. split; [exact P1 | exact P2].
Qed.

(** C9 as stated fails: the samples can fall behind the orders.  The
    progress line of the hundredth success is printed inside the critical
    section, after the order is counted and before the sample is
    appended; if the console raises there, the handler leaves through its
    [finally] with the order counted and no sample.  After one more
    order, completed and confirmed, there are 101 orders and 100
    samples. *)
Lemma samples_fall_behind_orders :
  let faulty :=
    {| path := ORDERS_PATH; request_start := request_start sample_order;
       timestamp := timestamp sample_order; print_time := print_time sample_order;
       finish_time := finish_time sample_order; fault := Some AtPrint |} in
  let run :=
    serve do_POST (repeat sample_order 99 ++ [faulty; sample_order])
      (init 500 fzero) in
  is_confirmed (last (fst run) (Raise OSError)) = true /\
  order_count (snd run) = 101 /\
  len (response_times (snd run)) = 100 /\
  len (response_times (snd run)) <> order_count (snd run).
Proof. vm_compute. repeat split; discriminate. Qed.

(** C9 (amended): serve any calls, none of which raises at its progress
    print: afterwards there are as many response-time samples as orders
    counted, and [/metrics] reports that number as [responseTime.count];
    the next call that places an order, confirmed or rejected, appends
    exactly its one sample, and a POST to any other path appends none. *)
Theorem one_sample_per_order (S : Z) (started : float) (cs : list call) :
  Forall (fun c => fault c <> Some AtPrint) cs ->
  let s := snd (serve do_POST cs (init S started)) in
  len (response_times s) = order_count s /\
  (forall now : float,
     exists doc : dict,
       metrics S now s = Ok doc /\
       lookup2 "responseTime" "count" doc = Some (JInt (order_count s))) /\
  (forall c : call,
     places_order c ->
     response_times (snd (do_POST c s)) = response_times s ++ [response_time_of c] /\
     order_count (snd (do_POST c s)) = order_count s + 1) /\
  (forall c : call,
     path c <> ORDERS_PATH ->
     response_times (snd (do_POST c s)) = response_times s /\
     order_count (snd (do_POST c s)) = order_count s).
Proof.
  intros Hcs. cbv zeta.
  set (s := snd (serve do_POST cs (init S started))).
  assert (Hlen : len (response_times s) = order_count s).
  { unfold s.
    apply (serve_invariant do_POST (fun c => fault c <> Some AtPrint)
             (fun st => len (response_times st) = order_count st));
      [| exact Hcs | reflexivity].
    intros c st Hc Hst.
    destruct (do_POST_samples c st Hc) as [[H1 H2] | (_ & H1 & H2)];
      rewrite H1, H2; [exact Hst|].
    unfold len in *. rewrite length_app. cbn [List.length]. lia. }
  split; [exact Hlen|]. split; [|split].
  - intros now.
    destruct (MetricsFacts.metrics_returns S now s)
      as (avg & rate & tps & fastest & slowest & Hdoc & _).
    eexists. split; [exact Hdoc|]. rewrite Hlen. reflexivity.
  - intros c Hc. rewrite (do_POST_placed c s Hc). cbn [snd].
    destruct (EnhancedCounting.placed_state c s) as (P1 & _ & _ & P2).
    split; [exact P2 | exact P1].
  - intros c Hpath.
    assert (Htr : trace_of c s = [AEnter; ALeave]).
    { unfold trace_of. destruct (String.eqb_spec (path c) ORDERS_PATH);
        [contradiction | reflexivity]. }
    rewrite do_POST_trace, Htr.
    change (exec [AEnter; ALeave] s) with (perform ALeave (perform AEnter s)).
    destruct (perform_enter s) as (_ & _ & _ & E1 & _ & _ & E2).
    destruct (perform_leave (perform AEnter s)) as (_ & _ & _ & L1 & _ & _ & L2).
    rewrite L1, L2, E1, E2. split; reflexivity.
Qed.

Lemma one_sample_per_order_witness :
  Forall (fun c => fault c <> Some AtPrint) [sample_order; sample_order] /\
  len (response_times
         (snd (serve do_POST [sample_order; sample_order] (init 1 fzero)))) =
  order_count (snd (serve do_POST [sample_order; sample_order] (init 1 fzero))).
Proof.
  assert (H2 : Forall (fun c => fault c <> Some AtPrint) [sample_order; sample_order])
    by (repeat constructor; discriminate).
  split; [exact H2|].
  exact (proj1 (one_sample_per_order 1 fzero [sample_order; sample_order] H2)).
Defined.

(** Where the hypothesis of C9 matters: a console that raises on the
    hundredth success leaves an order counted without a sample. *)
Lemma print_fault_loses_sample :
  let faulty :=
    {| path := ORDERS_PATH; request_start := request_start sample_order;
       timestamp := timestamp sample_order; print_time := print_time sample_order;
       finish_time := finish_time sample_order; fault := Some AtPrint |} in
  let s := snd (serve do_POST (repeat sample_order 99 ++ [faulty]) (init 500 fzero)) in
  order_count s = 100 /\ len (response_times s) = 99 /\ concurrent_requests s = 0.
Proof. vm_compute. repeat split. Qed.

End Samples.

(** ** Response documents *)

(** C3 as stated fails on mock_server.py: its 409 document carries no
    [orderId] and its 201 document no [remainingStock]. *)
Lemma mock_documents_lack_fields :
  (exists o d,
     fst (Mock.do_POST sample_order (Mock.init 0)) = Ok o /\
     status_code (reply o) = 409 /\
     body (reply o) = Some d /\
     lookup "orderId" d = None) /\
  (exists o d,
     fst (Mock.do_POST sample_order (Mock.init 1)) = Ok o /\
     status_code (reply o) = 201 /\
     body (reply o) = Some d /\
     lookup "remainingStock" d = None).
Proof.
  split; eexists; eexists; (split; [vm_compute; reflexivity|]);
    repeat split; reflexivity.
Qed.

(** C3 (amended): a call that places an order is answered
    - by enhanced_mock_server.py with 201 and the document
      [orderId, status = CONFIRMED, message, remainingStock] when there is
      stock, and with 409 and the document
      [error = INSUFFICIENT_STOCK, message, orderId] when there is none,
      [orderId] being the id assigned to the call;
    - by mock_server.py with 201 and [orderId, status = CONFIRMED, message]
      (no [remainingStock]), and with 409 and
      [error = INSUFFICIENT_STOCK, message] (no [orderId]). *)
Theorem order_response_documents (c : call) :
  places_order c ->
  (forall s : Enhanced.state,
     exists o : outcome,
       fst (Enhanced.do_POST c s) = Ok o /\
       assigned o = Some (order_id_of (Enhanced.order_count s + 1)) /\
       headers (reply o) = json_headers /\
       (0 < Enhanced.available_stock s ->
          status_code (reply o) = 201 /\
          body (reply o) = Some
            [("orderId", JStr (order_id_of (Enhanced.order_count s + 1)));
             ("status", JStr "CONFIRMED");
             ("message", JStr "Order created successfully");
             ("remainingStock", JInt (Enhanced.available_stock s - 1))]) /\
       (Enhanced.available_stock s <= 0 ->
          status_code (reply o) = 409 /\
          body (reply o) = Some
            [("error", JStr "INSUFFICIENT_STOCK");
             ("message", JStr "Insufficient stock for the requested items");
             ("orderId", JStr (order_id_of (Enhanced.order_count s + 1)))])) /\
  (forall s : Mock.state,
     exists o : outcome,
       fst (Mock.do_POST c s) = Ok o /\
       assigned o = Some (order_id_of (Mock.order_count s + 1)) /\
       headers (reply o) = json_headers /\
       (0 < Mock.available_stock s ->
          status_code (reply o) = 201 /\
          body (reply o) = Some
            [("orderId", JStr (order_id_of (Mock.order_count s + 1)));
             ("status", JStr "CONFIRMED");
             ("message", JStr "Order created successfully")]) /\
       (Mock.available_stock s <= 0 ->
          status_code (reply o) = 409 /\
          body (reply o) = Some
            [("error", JStr "INSUFFICIENT_STOCK");
             ("message", JStr "Insufficient stock for the requested items")])).
Proof.
  intros Hc. split; intros s.
  - rewrite (EnhancedFacts.do_POST_placed c s Hc). cbn [fst].
    eexists. split; [reflexivity|]. cbn [assigned reply].
    destruct (Z.ltb_spec 0 (Enhanced.available_stock s));
      (split; [reflexivity|]); (split; [reflexivity|]);
      split; intros; try lia; split; reflexivity.
  - rewrite (MockFacts.mock_do_POST_placed c s Hc).
    destruct (Z.ltb_spec 0 (Mock.available_stock s)); cbn [fst];
      eexists; (split; [reflexivity|]); cbn [assigned reply];
      (split; [reflexivity|]); (split; [reflexivity|]);
      split; intros; try lia; split; reflexivity.
Qed.

Lemma order_response_documents_witness :
  places_order sample_order /\
  exists o : outcome,
    fst (Enhanced.do_POST sample_order (Enhanced.init 0 fzero)) = Ok o /\
    status_code (reply o) = 409 /\
    body (reply o) = Some
      [("error", JStr "INSUFFICIENT_STOCK");
       ("message", JStr "Insufficient stock for the requested items");
       ("orderId", JStr "ORDER-00001")].
Proof.
  assert (Hc : places_order sample_order) by (split; reflexivity).
  split; [exact Hc|].
  destruct (proj1 (order_response_documents sample_order Hc) (Enhanced.init 0 fzero))
    as (o & Ho & _ & _ & _ & Hnone).
  exists o. split; [exact Ho|].
  apply Hnone. simpl. lia.
Defined.

(** ** The scenarios of the specification, evaluated *)

Module Scenarios.
Import Enhanced.

(** Stock 10, fifteen orders: ten 201 and five 409, and the counters that
    [/metrics] then shows. *)
Example fifteen_orders_for_ten_units :
  let run := serve do_POST (repeat sample_order 15) (init 10 fzero) in
  count is_confirmed (fst run) = 10 /\
  count is_rejected (fst run) = 5 /\
  snd run = sold_out /\
  available_stock sold_out = 0 /\
  order_count sold_out = 15 /\
  successful_orders sold_out = 10 /\
  failed_orders sold_out = 5 /\
  max_concurrent sold_out = 1.
Proof. vm_compute. repeat split. Qed.

(** No order placed. *)
Example metrics_before_any_order :
  exists doc,
    metrics 500 (float_of_int 60) (init 500 fzero) = Ok doc /\
    lookup2 "summary" "successRate" doc = Some (JInt 0) /\
    lookup2 "responseTime" "avg" doc = Some (JInt 0) /\
    lookup2 "responseTime" "count" doc = Some (JInt 0).
Proof. eexists. split; [vm_compute; reflexivity|]. repeat split. Qed.

(** Three successful orders out of a stock of 100. *)
Example inventory_after_three_orders :
  let s := snd (serve do_POST (repeat sample_order 3) (init 100 fzero)) in
  exists doc,
    do_GET 100 "/api/v1/inventory/products/xyz" (float_of_int 60) s =
      Ok {| status_code := 200; headers := json_headers; body := Some doc |} /\
    lookup "availableStock" doc = Some (JInt 97) /\
    lookup "reservedStock" doc = Some (JInt 3).
Proof. eexists. split; [vm_compute; reflexivity|]. split; reflexivity. Qed.

(** The success rate is a binary64 product: 7 successes out of 100 orders
    are reported as 7.000000000000001. *)
Example success_rate_is_rounded :
  rbind (int_truediv 7 100) (fun q => Ok (fmul q (float_of_int 100))) =
    Ok (S754_finite false 7881299347898369 (-50)) /\
  float_of_int 7 = S754_finite false 7881299347898368 (-50).
Proof. split; vm_compute; reflexivity. Qed.

End Scenarios.

(** * Further properties of the two servers *)

(** ** More on the order attempt *)

Module AttemptLog.
Import Enhanced EnhancedFacts.

(** What the progress line does to the console and the timestamps. *)
Lemma print_progress_console (c : call) (s : state) :
  order_timestamps (snd (print_progress c s)) = order_timestamps s /\
  (strikes c AtPrint = true ->
     fst (print_progress c s) = Raise OSError /\
     console (snd (print_progress c s)) = console s) /\
  (strikes c AtPrint = false ->
     exists rps,
       console (snd (print_progress c s)) =
       console s ++
         [{| shown_time := timestamp c;
             shown_orders := order_count s;
             shown_success := successful_orders s;
             shown_failed := failed_orders s;
             shown_stock := available_stock s;
             shown_rps := rps;
             shown_concurrent := concurrent_requests s |}]).
Proof.
  unfold print_progress; run_monad.
  destruct (fpositive _) eqn:Hpos; simpl.
  - unfold int_div_float. rewrite (fpositive_not_zero _ Hpos). simpl.
    destruct (strikes c AtPrint); simpl; split; try reflexivity;
      split; intros H; try discriminate; [split; reflexivity | eexists; reflexivity].
  - destruct (strikes c AtPrint); simpl; split; try reflexivity;
      split; intros H; try discriminate; [split; reflexivity | eexists; reflexivity].
Qed.

(** The timestamps and the console after an order attempt. *)
Lemma place_order_log (c : call) (s : state) :
  let s' := snd (place_order c s) in
  (available_stock s <= 0 ->
     order_timestamps s' = order_timestamps s /\ console s' = console s) /\
  (0 < available_stock s ->
     order_timestamps s' = order_timestamps s ++ [timestamp c] /\
     ((successful_orders s + 1) mod 100 <> 0 -> console s' = console s) /\
     (strikes c AtPrint = true -> console s' = console s) /\
     ((successful_orders s + 1) mod 100 = 0 ->
      strikes c AtPrint = false ->
      exists rps,
        console s' =
        console s ++
          [{| shown_time := timestamp c;
              shown_orders := order_count s + 1;
              shown_success := successful_orders s + 1;
              shown_failed := failed_orders s;
              shown_stock := available_stock s - 1;
              shown_rps := rps;
              shown_concurrent := concurrent_requests s |}])).
Proof.
  unfold place_order; run_monad.
  destruct (Z.gtb_spec (available_stock s) 0) as [Hpos | Hnone]; simpl.
  - split; [lia|]. intros _.
    destruct (Z.eqb_spec ((successful_orders s + 1) mod 100) 0) as [Hdue | Hdue]; simpl.
    + match goal with
      | |- context [print_progress c ?st] =>
          destruct (print_progress_console c st) as (Hts & Hraise & Hline);
          destruct (print_progress c st) as [[[]|e] s1]
      end; simpl in *.
      * rewrite Hts. split; [reflexivity|]. split; [intros; contradiction|].
        split.
        -- intros Hf. destruct (Hraise Hf) as [Habs _]. discriminate.
        -- intros _ Hf. exact (Hline Hf).
      * rewrite Hts. split; [reflexivity|]. split; [intros; contradiction|].
        split.
        -- intros Hf. exact (proj2 (Hraise Hf)).
        -- intros _ Hf. exact (Hline Hf).
    + split; [reflexivity|]. split; [reflexivity|]. split; [reflexivity|].
      intros; contradiction.
  - split; [|lia]. intros _. split; reflexivity.
Qed.

(** When the attempt returns and when it raises. *)
Lemma place_order_result (c : call) (s : state) :
  (0 < available_stock s ->
   (successful_orders s + 1) mod 100 = 0 ->
   strikes c AtPrint = true ->
   fst (place_order c s) = Raise OSError) /\
  (0 < available_stock s ->
   (successful_orders s + 1) mod 100 <> 0 ->
   fst (place_order c s) =
     Ok (order_id_of (order_count s + 1),
         [("orderId", JStr (order_id_of (order_count s + 1)));
          ("status", JStr "CONFIRMED");
          ("message", JStr "Order created successfully");
          ("remainingStock", JInt (available_stock s - 1))],
         201)).
Proof.
  unfold place_order; run_monad.
  split; intros Hpos Hdue; [intros Hf|];
    destruct (Z.gtb_spec (available_stock s) 0); try lia; simpl;
    destruct (Z.eqb_spec ((successful_orders s + 1) mod 100) 0); try lia; simpl;
    try reflexivity.
  match goal with
  | |- context [print_progress c ?st] =>
      destruct (print_progress_console c st) as (_ & Hraise & _);
      destruct (Hraise Hf) as [Hr _];
      destruct (print_progress c st) as [r s1]
  end.
  simpl in Hr. subst r. reflexivity.
Qed.

End AttemptLog.

(** ** More invariants of the traces of enhanced_mock_server.py *)

Module TraceFacts.
Import Enhanced EnhancedFacts EnhancedInvariants AttemptLog.

Lemma perform_enter_log (s : state) :
  order_timestamps (perform AEnter s) = order_timestamps s /\
  console (perform AEnter s) = console s /\
  start_time (perform AEnter s) = start_time s.
Proof.
  unfold perform, enter; run_monad. destruct (_ >? _); repeat split.
Qed.

(** Two states of one trace, the earlier first, are related by every
    reflexive and transitive relation that each action respects. *)
Lemma states_related (R : state -> state -> Prop) :
  (forall s, R s s) ->
  (forall s1 s2 s3, R s1 s2 -> R s2 s3 -> R s1 s3) ->
  (forall a s, R s (perform a s)) ->
  forall tr s i j si sj,
    (i <= j)%nat ->
    nth_error (states tr s) i = Some si ->
    nth_error (states tr s) j = Some sj ->
    R si sj.
Proof.
  intros Hrefl Htrans Hstep.
  assert (Hfrom : forall tr s j sj, nth_error (states tr s) j = Some sj -> R s sj).
  { induction tr as [|a tr IH]; intros s j sj Hj.
    - destruct j as [|[|j]]; simpl in Hj; try discriminate.
      injection Hj as <-. apply Hrefl.
    - destruct j as [|j]; simpl in Hj.
      + injection Hj as <-. apply Hrefl.
      + apply (Htrans _ (perform a s)); [apply Hstep | apply (IH _ _ _ Hj)]. }
  induction tr as [|a tr IH]; intros s i j si sj Hij Hi Hj.
  - destruct i as [|[|i]]; simpl in Hi; try discriminate.
    destruct j as [|[|j]]; simpl in Hj; try discriminate.
    injection Hi as <-. injection Hj as <-. apply Hrefl.
  - destruct i as [|i].
    + simpl in Hi. injection Hi as <-. apply (Hfrom _ _ _ _ Hj).
    + destruct j as [|j]; [lia|]. simpl in Hi, Hj.
      apply (IH (perform a s) i j); auto. lia.
Qed.

(** One action: counters go up, the stock goes down, the logs are
    appended to. *)
Lemma perform_grows (a : action) (s : state) :
  order_count s <= order_count (perform a s) /\
  successful_orders s <= successful_orders (perform a s) /\
  failed_orders s <= failed_orders (perform a s) /\
  available_stock (perform a s) <= available_stock s /\
  (exists more, response_times (perform a s) = response_times s ++ more) /\
  (exists more, order_timestamps (perform a s) = order_timestamps s ++ more) /\
  (exists more, console (perform a s) = console s ++ more).
Proof.
  destruct a as [|c|x|].
  - destruct (perform_enter s) as (_ & _ & H1 & H2 & H3 & H4 & H5).
    destruct (perform_enter_log s) as (H6 & H7 & _).
    rewrite H1, H2, H3, H4, H5, H6, H7.
    repeat split; try lia; exists []; now rewrite List.app_nil_r.
  - unfold perform.
    destruct (place_order_state c s) as (Hcount & Hsold & Hout & _ & _ & Hrt & _).
    destruct (place_order_log c s) as (Lout & Lsold).
    rewrite Hcount, Hrt.
    destruct (Z.lt_ge_cases 0 (available_stock s)) as [Hpos | Hnone].
    + destruct (Hsold Hpos) as (H1 & H2 & H3).
      destruct (Lsold Hpos) as (L1 & L2 & L3 & L4).
      rewrite H1, H2, H3, L1.
      repeat split; try lia;
        [exists []; now rewrite List.app_nil_r | eexists; reflexivity |].
      destruct (Z.eq_dec ((successful_orders s + 1) mod 100) 0) as [Hdue | Hdue].
      * destruct (strikes c AtPrint) eqn:Hf.
        -- rewrite (L3 eq_refl). exists []; now rewrite List.app_nil_r.
        -- destruct (L4 Hdue eq_refl) as [rps ->]. eexists; reflexivity.
      * rewrite (L2 Hdue). exists []; now rewrite List.app_nil_r.
    + destruct (Hout Hnone) as (H1 & H2 & H3).
      destruct (Lout Hnone) as (L1 & L2).
      rewrite H1, H2, H3, L1, L2.
      repeat split; try lia; exists []; now rewrite List.app_nil_r.
  - simpl. repeat split; try lia;
      try (exists []; now rewrite List.app_nil_r). eexists; reflexivity.
  - simpl. repeat split; try lia; exists []; now rewrite List.app_nil_r.
Qed.

(** X1: along every trace of atomic actions, between an earlier and a
    later observation point the order, success and failure counters never
    decrease, the stock never increases, and the response-time samples,
    the order timestamps and the console lines are only appended to. *)
Theorem counters_monotone_logs_append_only
  (tr : list action) (s : state) (i j : nat) (si sj : state) :
  (i <= j)%nat ->
  nth_error (states tr s) i = Some si ->
  nth_error (states tr s) j = Some sj ->
  order_count si <= order_count sj /\
  successful_orders si <= successful_orders sj /\
  failed_orders si <= failed_orders sj /\
  available_stock sj <= available_stock si /\
  (exists more, response_times sj = response_times si ++ more) /\
  (exists more, order_timestamps sj = order_timestamps si ++ more) /\
  (exists more, console sj = console si ++ more).
Proof.
  apply (states_related
    (fun s1 s2 =>
       order_count s1 <= order_count s2 /\
       successful_orders s1 <= successful_orders s2 /\
       failed_orders s1 <= failed_orders s2 /\
       available_stock s2 <= available_stock s1 /\
       (exists more, response_times s2 = response_times s1 ++ more) /\
       (exists more, order_timestamps s2 = order_timestamps s1 ++ more) /\
       (exists more, console s2 = console s1 ++ more))).
  - intros s0. repeat split; try lia; exists []; now rewrite List.app_nil_r.
  - intros s1 s2 s3 (A1 & A2 & A3 & A4 & [m1 A5] & [m2 A6] & [m3 A7])
                    (B1 & B2 & B3 & B4 & [n1 B5] & [n2 B6] & [n3 B7]).
    repeat split; try lia.
    + exists (m1 ++ n1). now rewrite B5, A5, List.app_assoc.
    + exists (m2 ++ n2). now rewrite B6, A6, List.app_assoc.
    + exists (m3 ++ n3). now rewrite B7, A7, List.app_assoc.
  - intros a s0. apply perform_grows.
Qed.

Lemma counters_monotone_logs_append_only_witness :
  let tr := [AEnter; APlace sample_order; ARecord fzero; ALeave] in
  let s0 := init 1 fzero in
  order_count s0 <= order_count (exec tr s0) /\
  successful_orders s0 <= successful_orders (exec tr s0).
Proof.
  destruct (counters_monotone_logs_append_only
              [AEnter; APlace sample_order; ARecord fzero; ALeave]
              (init 1 fzero) 0 4 (init 1 fzero)
              (exec [AEnter; APlace sample_order; ARecord fzero; ALeave] (init 1 fzero)))
    as (H1 & H2 & _); [lia | reflexivity | reflexivity |].
  split; [exact H1 | exact H2].
Defined.

(** *** Timestamps and progress lines *)

(** What every progress line shows, for initial stock [S]. *)
Lemma perform_log_invariant (S : Z) (a : action) (s : state) :
  let good := fun s =>
    ledger_consistent S s /\
    0 <= successful_orders s /\
    len (order_timestamps s) = successful_orders s /\
    Forall (fun l =>
              0 < shown_success l /\
              shown_success l mod 100 = 0 /\
              shown_orders l = shown_success l + shown_failed l /\
              shown_stock l = S - shown_success l)
           (console s) in
  good s -> good (perform a s).
Proof.
  cbv zeta. intros (Hled & Hsucc & Hts & Hcon).
  pose proof (perform_consistent S a s Hled) as Hled'.
  split; [exact Hled'|].
  destruct Hled as [Hstock Htotal].
  destruct a as [|c|x|].
  - destruct (perform_enter s) as (_ & _ & _ & _ & H3 & _).
    destruct (perform_enter_log s) as (H6 & H7 & _).
    rewrite H3, H6, H7. auto.
  - unfold perform in *.
    destruct (place_order_state c s) as (Hcount & Hsold & Hout & _).
    destruct (place_order_log c s) as (Lout & Lsold).
    destruct (Z.lt_ge_cases 0 (available_stock s)) as [Hpos | Hnone].
    + destruct (Hsold Hpos) as (H1 & H2 & H3).
      destruct (Lsold Hpos) as (L1 & L2 & L3 & L4).
      rewrite H2, L1. split; [lia|]. split.
      * unfold len in *. rewrite length_app. cbn [List.length]. lia.
      * destruct (Z.eq_dec ((successful_orders s + 1) mod 100) 0) as [Hdue | Hdue].
        -- destruct (strikes c AtPrint) eqn:Hf.
           ++ rewrite (L3 eq_refl). exact Hcon.
           ++ destruct (L4 Hdue eq_refl) as [rps ->].
              apply Forall_app. split; [exact Hcon|].
              constructor; [|constructor]. cbn. repeat split; lia.
        -- rewrite (L2 Hdue). exact Hcon.
    + destruct (Hout Hnone) as (H1 & H2 & H3).
      destruct (Lout Hnone) as (L1 & L2).
      rewrite H2, L1, L2. auto.
  - simpl. auto.
  - simpl. auto.
Qed.

(** X2: after every trace of atomic actions from the initial globals there
    is one order timestamp per successful order, and every progress line on
    the console was printed at a positive multiple of 100 successes and
    shows a consistent ledger: orders = successes + failures and
    stock = INITIAL_STOCK - successes. *)
Theorem timestamps_and_progress_lines
  (S : Z) (started : float) (tr : list action) :
  let s := exec tr (init S started) in
  len (order_timestamps s) = successful_orders s /\
  Forall (fun l =>
            0 < shown_success l /\
            shown_success l mod 100 = 0 /\
            shown_orders l = shown_success l + shown_failed l /\
            shown_stock l = S - shown_success l)
         (console s).
Proof.
  cbv zeta.
  assert (H : ledger_consistent S (exec tr (init S started)) /\
              0 <= successful_orders (exec tr (init S started)) /\
              len (order_timestamps (exec tr (init S started))) =
                successful_orders (exec tr (init S started)) /\
              Forall (fun l =>
                        0 < shown_success l /\
                        shown_success l mod 100 = 0 /\
                        shown_orders l = shown_success l + shown_failed l /\
                        shown_stock l = S - shown_success l)
                     (console (exec tr (init S started)))).
  { apply (exec_invariant
             (fun s =>
                ledger_consistent S s /\
                0 <= successful_orders s /\
                len (order_timestamps s) = successful_orders s /\
                Forall (fun l =>
                          0 < shown_success l /\
                          shown_success l mod 100 = 0 /\
                          shown_orders l = shown_success l + shown_failed l /\
                          shown_stock l = S - shown_success l)
                       (console s))).
    - intros a s. apply (perform_log_invariant S a s).
    - repeat split; simpl; try lia. constructor. }
  destruct H as (_ & _ & H1 & H2). split; assumption.
Qed.

(** The number of progress lines, when the console never raises. *)
Lemma perform_line_count (a : action) (s : state) :
  prints_freely a = true ->
  0 <= successful_orders s /\ len (console s) = successful_orders s / 100 ->
  0 <= successful_orders (perform a s) /\
  len (console (perform a s)) = successful_orders (perform a s) / 100.
Proof.
  intros Hfree [Hsucc Hlines].
  destruct a as [|c|x|].
  - destruct (perform_enter s) as (_ & _ & _ & _ & H3 & _).
    destruct (perform_enter_log s) as (_ & H7 & _).
    rewrite H3, H7. auto.
  - unfold perform. simpl in Hfree. apply negb_true_iff in Hfree.
    destruct (place_order_state c s) as (_ & Hsold & Hout & _).
    destruct (place_order_log c s) as (Lout & Lsold).
    destruct (Z.lt_ge_cases 0 (available_stock s)) as [Hpos | Hnone].
    + destruct (Hsold Hpos) as (_ & H2 & _).
      destruct (Lsold Hpos) as (_ & L2 & _ & L4).
      rewrite H2. split; [lia|].
      destruct (Z.eq_dec ((successful_orders s + 1) mod 100) 0) as [Hdue | Hdue].
      * destruct (L4 Hdue Hfree) as [rps ->].
        unfold len in *. rewrite length_app. cbn [List.length].
        rewrite Nat2Z.inj_add, Hlines. cbn [Z.of_nat Pos.of_succ_nat].
        pose proof (Z.div_mod (successful_orders s + 1) 100).
        pose proof (Z.div_mod (successful_orders s) 100).
        pose proof (Z.mod_pos_bound (successful_orders s) 100).
        lia.
      * rewrite (L2 Hdue), Hlines.
        pose proof (Z.div_mod (successful_orders s + 1) 100).
        pose proof (Z.div_mod (successful_orders s) 100).
        pose proof (Z.mod_pos_bound (successful_orders s) 100).
        pose proof (Z.mod_pos_bound (successful_orders s + 1) 100).
        lia.
    + destruct (Hout Hnone) as (_ & H2 & _).
      destruct (Lout Hnone) as (_ & L2).
      rewrite H2, L2. auto.
  - simpl. auto.
  - simpl. auto.
Qed.

(** X3: when the console never raises, the number of progress lines
    printed is the number of successful orders divided by 100, rounded
    down: one line at every hundredth success and none in between. *)
Theorem one_progress_line_per_hundred
  (S : Z) (started : float) (tr : list action) :
  forallb prints_freely tr = true ->
  len (console (exec tr (init S started))) =
  successful_orders (exec tr (init S started)) / 100.
Proof.
  intros Hfree.
  assert (H : forall tr s,
            forallb prints_freely tr = true ->
            0 <= successful_orders s /\ len (console s) = successful_orders s / 100 ->
            0 <= successful_orders (exec tr s) /\
            len (console (exec tr s)) = successful_orders (exec tr s) / 100).
  { clear. induction tr as [|a tr IH]; intros s Hfree Hs; [exact Hs|].
    simpl in Hfree. apply andb_prop in Hfree as [Ha Hrest].
    change (exec (a :: tr) s) with (exec tr (perform a s)).
    apply IH; [exact Hrest | apply perform_line_count; assumption]. }
  apply (H tr (init S started) Hfree). split; [simpl; lia | reflexivity].
Qed.

Lemma one_progress_line_per_hundred_witness :
  forallb prints_freely (repeat (APlace sample_order) 100) = true /\
  len (console (exec (repeat (APlace sample_order) 100) (init 500 fzero))) = 1.
Proof.
  assert (H : forallb prints_freely (repeat (APlace sample_order) 100) = true)
    by (vm_compute; reflexivity).
  split; [exact H|].
  rewrite (one_progress_line_per_hundred 500 fzero _ H).
  vm_compute. reflexivity.
Defined.

(** *** The tracker, counted *)

Lemma exec_tracker_count (tr : list action) (s : state) :
  concurrent_requests (exec tr s) =
    concurrent_requests s + count is_enter tr - count is_leave tr /\
  max_concurrent s <= max_concurrent (exec tr s) /\
  max_concurrent (exec tr s) <=
    Z.max (max_concurrent s) (concurrent_requests s + count is_enter tr).
Proof.
  revert s; induction tr as [|a tr IH]; intros s.
  - unfold count, len; simpl. lia.
  - change (exec (a :: tr) s) with (exec tr (perform a s)).
    destruct (IH (perform a s)) as (I1 & I2 & I3).
    rewrite !count_cons.
    pose proof (len_nonneg (filter is_enter tr)) as Hn.
    fold (count is_enter tr) in Hn.
    destruct a as [|c|x|]; cbn [is_enter is_leave].
    + destruct (perform_enter s) as (H1 & H2 & _). lia.
    + unfold perform in *.
      destruct (place_order_state c s) as (_ & _ & _ & H1 & H2 & _). lia.
    + destruct (perform_record x s) as (H1 & H2 & _). lia.
    + destruct (perform_leave s) as (H1 & H2 & _). lia.
Qed.

(** Some state of the trace has as many requests in flight as the final
    high-water mark says, unless the mark is the one the trace started
    with. *)
Lemma max_attained_from (tr : list action) (s : state) :
  max_concurrent (exec tr s) = max_concurrent s \/
  exists i si,
    nth_error (states tr s) i = Some si /\
    concurrent_requests si = max_concurrent (exec tr s).
Proof.
  revert s; induction tr as [|a tr IH]; intros s; [left; reflexivity|].
  change (exec (a :: tr) s) with (exec tr (perform a s)).
  destruct (IH (perform a s)) as [Hsame | (i & si & Hi & Hsi)].
  - rewrite Hsame.
    destruct a as [|c|x|].
    + destruct (perform_enter s) as (H1 & H2 & _).
      destruct (Z.le_gt_cases (concurrent_requests s + 1) (max_concurrent s)).
      * left. lia.
      * right. exists 1%nat, (perform AEnter s). split.
        -- simpl. destruct tr; reflexivity.
        -- lia.
    + left. unfold perform.
      destruct (place_order_state c s) as (_ & _ & _ & _ & H2 & _). exact H2.
    + left. reflexivity.
    + left. reflexivity.
  - right. exists (Datatypes.S i), si. split; [exact Hi | exact Hsi].
Qed.

(** X4: along every trace from the initial globals, [concurrent_requests]
    is the number of requests that entered minus the number that left;
    [max_concurrent] is between 0 and the number of requests that entered;
    and it is attained: at some observation point of the trace exactly
    [max_concurrent] requests were in flight. *)
Theorem tracker_counts_and_mark_attained
  (S : Z) (started : float) (tr : list action) :
  let s := exec tr (init S started) in
  concurrent_requests s = count is_enter tr - count is_leave tr /\
  0 <= max_concurrent s <= count is_enter tr /\
  exists i si,
    nth_error (states tr (init S started)) i = Some si /\
    concurrent_requests si = max_concurrent s.
Proof.
  cbv zeta.
  destruct (exec_tracker_count tr (init S started)) as (H1 & H2 & H3).
  pose proof (len_nonneg (filter is_enter tr)) as Hn.
  fold (count is_enter tr) in Hn.
  simpl in H1, H2, H3.
  split; [lia|]. split; [lia|].
  destruct (max_attained_from tr (init S started)) as [Hsame | Hex]; [|exact Hex].
  exists 0%nat, (init S started). split.
  - destruct tr; reflexivity.
  - rewrite Hsame. reflexivity.
Qed.

(** *** One request at a time *)

Lemma do_POST_tracker (c : call) (s : state) :
  concurrent_requests (snd (do_POST c s)) = concurrent_requests s /\
  max_concurrent (snd (do_POST c s)) =
    Z.max (max_concurrent s) (concurrent_requests s + 1).
Proof.
  rewrite do_POST_trace.
  destruct (trace_of_shape c s) as (mid & Hshape & Hmid). rewrite Hshape.
  change (AEnter :: mid ++ [ALeave]) with ((AEnter :: mid) ++ [ALeave]).
  rewrite exec_app.
  change (exec (AEnter :: mid) s) with (exec mid (perform AEnter s)).
  destruct (exec_untracked mid (perform AEnter s) Hmid) as [Hc Hm].
  destruct (perform_enter s) as (He1 & He2 & _).
  destruct (perform_leave (exec mid (perform AEnter s))) as (Hl1 & Hl2 & _).
  change (exec [ALeave] (exec mid (perform AEnter s)))
    with (perform ALeave (exec mid (perform AEnter s))).
  rewrite Hl1, Hl2, Hc, Hm, He1, He2. split; [lia | reflexivity].
Qed.

(** X5: served one request at a time, as [HTTPServer] does, the handlers
    never overlap: after any list of POSTs (any paths, any faults) no
    request is in flight, and [max_concurrent] is 1 as soon as one POST has
    been served (0 before). *)
Theorem sequential_server_peaks_at_one
  (S : Z) (started : float) (cs : list call) :
  let s := snd (serve do_POST cs (init S started)) in
  concurrent_requests s = 0 /\
  max_concurrent s = match cs with [] => 0 | _ :: _ => 1 end.
Proof.
  cbv zeta.
  assert (H : forall cs s,
            concurrent_requests s = 0 ->
            concurrent_requests (snd (serve do_POST cs s)) = 0 /\
            max_concurrent (snd (serve do_POST cs s)) =
              match cs with
              | [] => max_concurrent s
              | _ :: _ => Z.max (max_concurrent s) 1
              end).
  { clear. induction cs as [|c cs IH]; intros s Hs; [split; [exact Hs | reflexivity]|].
    rewrite serve_snd_cons.
    destruct (do_POST_tracker c s) as [Hc Hm].
    destruct (IH (snd (do_POST c s))) as [I1 I2]; [lia|].
    split; [exact I1|]. rewrite I2, Hm, Hs.
    destruct cs; lia. }
  destruct (H cs (init S started) eq_refl) as [H1 H2].
  split; [exact H1|]. rewrite H2. destruct cs; reflexivity.
Qed.

End TraceFacts.

(** ** The handlers on every kind of call *)

Module HandlerFacts.
Import EnhancedFacts EnhancedInvariants AttemptLog.

(** The handler of enhanced_mock_server.py on an order call that gets past
    the sleep, by the result of the order attempt. *)
Lemma enhanced_do_POST_orders (c : call) (s : Enhanced.state) :
  path c = ORDERS_PATH ->
  strikes c AtSleep = false ->
  Enhanced.do_POST c s =
    match fst (Enhanced.place_order c (Enhanced.perform Enhanced.AEnter s)) with
    | Ok (order_id, response, code) =>
        (if strikes c AtSend then Raise OSError
         else Ok {| assigned := Some order_id;
                    reply := {| status_code := code; headers := json_headers;
                                body := Some response |} |},
         Enhanced.exec
           [Enhanced.AEnter; Enhanced.APlace c;
            Enhanced.ARecord (Enhanced.response_time_of c); Enhanced.ALeave] s)
    | Raise e =>
        (Raise e,
         Enhanced.exec [Enhanced.AEnter; Enhanced.APlace c; Enhanced.ALeave] s)
    end.
Proof.
  intros Hpath Hsleep.
  unfold Enhanced.do_POST, Enhanced.with_stock_lock, Enhanced.exec.
  unfold bind at 1. rewrite enter_eq. unfold try_finally.
  rewrite Hpath, String.eqb_refl.
  unfold sleep, bind at 1. rewrite Hsleep.
  unfold ret, bind at 1. rewrite place_eq.
  destruct (fst (Enhanced.place_order c (Enhanced.perform Enhanced.AEnter s)))
    as [[[oid resp] code]|e].
  - unfold bind. rewrite record_eq. unfold send.
    destruct (strikes c AtSend); unfold raise, ret; rewrite leave_eq; reflexivity.
  - rewrite leave_eq. reflexivity.
Qed.

(** A handler run that does not reach the order attempt. *)
Lemma idle_run (s : Enhanced.state) :
  Enhanced.exec [Enhanced.AEnter; Enhanced.ALeave] s =
  Enhanced.set_max_concurrent
    (Z.max (Enhanced.max_concurrent s) (Enhanced.concurrent_requests s + 1)) s.
Proof.
  destruct s as [stock orders succ failed inflight highest started rts ots con].
  unfold Enhanced.exec, Enhanced.perform, Enhanced.enter, Enhanced.leave.
  run_monad.
  destruct (Z.gtb_spec (inflight + 1) highest);
    unfold Enhanced.set_max_concurrent, Enhanced.set_concurrent_requests;
    simpl; f_equal; lia.
Qed.

Lemma enhanced_do_POST_idle (c : call) (s : Enhanced.state) :
  path c <> ORDERS_PATH \/ strikes c AtSleep = true ->
  snd (Enhanced.do_POST c s) =
  Enhanced.set_max_concurrent
    (Z.max (Enhanced.max_concurrent s) (Enhanced.concurrent_requests s + 1)) s.
Proof.
  intros H. rewrite do_POST_trace, <- idle_run. f_equal.
  unfold Enhanced.trace_of.
  destruct (String.eqb_spec (path c) ORDERS_PATH) as [Hp | Hp]; [|reflexivity].
  destruct H as [H | H]; [contradiction|]. rewrite H. reflexivity.
Qed.

Lemma enhanced_do_POST_unknown (c : call) (s : Enhanced.state) :
  path c <> ORDERS_PATH ->
  Enhanced.do_POST c s =
    (if strikes c AtSend then Raise OSError
     else Ok {| assigned := None;
                reply := {| status_code := 404; headers := []; body := None |} |},
     Enhanced.set_max_concurrent
       (Z.max (Enhanced.max_concurrent s) (Enhanced.concurrent_requests s + 1)) s).
Proof.
  intros Hpath.
  rewrite (surjective_pairing (Enhanced.do_POST c s)).
  rewrite (enhanced_do_POST_idle c s (or_introl Hpath)). f_equal.
  unfold Enhanced.do_POST, Enhanced.with_stock_lock.
  unfold bind at 1. rewrite enter_eq. unfold try_finally.
  destruct (String.eqb_spec (path c) ORDERS_PATH) as [Hp | _]; [contradiction|].
  unfold send, not_found.
  destruct (strikes c AtSend); unfold raise, ret; rewrite leave_eq; reflexivity.
Qed.

Lemma mock_do_POST_unknown (c : call) (s : Mock.state) :
  path c <> ORDERS_PATH ->
  Mock.do_POST c s =
    (if strikes c AtSend then Raise OSError
     else Ok {| assigned := None;
                reply := {| status_code := 404; headers := []; body := None |} |},
     s).
Proof.
  intros Hpath. unfold Mock.do_POST.
  destruct (String.eqb_spec (path c) ORDERS_PATH) as [Hp | _]; [contradiction|].
  unfold send, not_found. destruct (strikes c AtSend); reflexivity.
Qed.

(** X6: a POST to any path other than /api/v1/orders draws no order id
    and is answered 404 with no body; it raises only if the response cannot
    be written.  mock_server.py leaves its globals untouched;
    enhanced_mock_server.py changes nothing but [max_concurrent], which
    still counts the request. *)
Theorem unknown_path_post (c : call) :
  path c <> ORDERS_PATH ->
  (forall s : Enhanced.state,
     (strikes c AtSend = true -> fst (Enhanced.do_POST c s) = Raise OSError) /\
     (strikes c AtSend = false ->
        exists o : outcome,
          fst (Enhanced.do_POST c s) = Ok o /\
          assigned o = None /\
          status_code (reply o) = 404 /\
          body (reply o) = None) /\
     snd (Enhanced.do_POST c s) =
       Enhanced.set_max_concurrent
         (Z.max (Enhanced.max_concurrent s) (Enhanced.concurrent_requests s + 1)) s) /\
  (forall s : Mock.state,
     (strikes c AtSend = true -> fst (Mock.do_POST c s) = Raise OSError) /\
     (strikes c AtSend = false ->
        exists o : outcome,
          fst (Mock.do_POST c s) = Ok o /\
          assigned o = None /\
          status_code (reply o) = 404 /\
          body (reply o) = None) /\
     snd (Mock.do_POST c s) = s).
Proof.
  intros Hpath. split; intros s.
  - rewrite (enhanced_do_POST_unknown c s Hpath). cbn [fst snd].
    split; [intros ->; reflexivity|]. split; [|reflexivity].
    intros ->. eexists. repeat split.
  - rewrite (mock_do_POST_unknown c s Hpath). cbn [fst snd].
    split; [intros ->; reflexivity|]. split; [|reflexivity].
    intros ->. eexists. repeat split.
Qed.

Lemma unknown_path_post_witness :
  let c := {| path := "/api/v1/order"; request_start := fzero; timestamp := 0;
              print_time := fzero; finish_time := fzero; fault := None |} in
  path c <> ORDERS_PATH /\
  snd (Mock.do_POST c (Mock.init 100)) = Mock.init 100 /\
  exists o : outcome,
    fst (Mock.do_POST c (Mock.init 100)) = Ok o /\
    assigned o = None /\
    status_code (reply o) = 404 /\
    body (reply o) = None.
Proof.
  cbv zeta.
  assert (Hp : path {| path := "/api/v1/order"; request_start := fzero;
                       timestamp := 0; print_time := fzero;
                       finish_time := fzero; fault := None |} <> ORDERS_PATH)
    by discriminate.
  split; [exact Hp|].
  destruct (proj2 (unknown_path_post _ Hp) (Mock.init 100)) as (_ & Hok & Hstate).
  split; [exact Hstate | exact (Hok eq_refl)].
Defined.

(** X7: when the sleep before the order attempt is interrupted, the
    handler of enhanced_mock_server.py raises without having drawn an order
    id: the ledger, the samples and the console are untouched, the request
    has left, and only [max_concurrent] may have moved. *)
Theorem interrupted_sleep_places_no_order (c : call) (s : Enhanced.state) :
  path c = ORDERS_PATH ->
  fault c = Some AtSleep ->
  Enhanced.do_POST c s =
    (Raise OSError,
     Enhanced.set_max_concurrent
       (Z.max (Enhanced.max_concurrent s) (Enhanced.concurrent_requests s + 1)) s).
Proof.
  intros Hpath Hfault.
  assert (Hsleep : strikes c AtSleep = true)
    by (unfold strikes; rewrite Hfault; reflexivity).
  rewrite (surjective_pairing (Enhanced.do_POST c s)).
  rewrite (enhanced_do_POST_idle c s (or_intror Hsleep)). f_equal.
  unfold Enhanced.do_POST, Enhanced.with_stock_lock.
  unfold bind at 1. rewrite enter_eq. unfold try_finally.
  rewrite Hpath, String.eqb_refl.
  unfold sleep, bind at 1. rewrite Hsleep. unfold raise.
  rewrite leave_eq. reflexivity.
Qed.

Lemma interrupted_sleep_places_no_order_witness :
  let c := {| path := ORDERS_PATH; request_start := fzero; timestamp := 0;
              print_time := fzero; finish_time := fzero; fault := Some AtSleep |} in
  path c = ORDERS_PATH /\ fault c = Some AtSleep /\
  fst (Enhanced.do_POST c (Enhanced.init 5 fzero)) = Raise OSError /\
  Enhanced.available_stock (snd (Enhanced.do_POST c (Enhanced.init 5 fzero))) = 5 /\
  Enhanced.order_count (snd (Enhanced.do_POST c (Enhanced.init 5 fzero))) = 0.
Proof.
  cbv zeta. split; [reflexivity|]. split; [reflexivity|].
  match goal with
  | |- fst (Enhanced.do_POST ?c ?s) = _ /\ _ =>
      rewrite (interrupted_sleep_places_no_order c s eq_refl eq_refl)
  end.
  repeat split.
Defined.

(** The handler of mock_server.py on an order call, whatever the fault. *)
Lemma mock_do_POST_orders (c : call) (s : Mock.state) :
  path c = ORDERS_PATH ->
  Mock.do_POST c s =
    if 0 <? Mock.available_stock s then
      (if strikes c AtSend then Raise OSError
       else Ok {| assigned := Some (order_id_of (Mock.order_count s + 1));
                  reply :=
                    {| status_code := 201; headers := json_headers;
                       body := Some
                         [("orderId", JStr (order_id_of (Mock.order_count s + 1)));
                          ("status", JStr "CONFIRMED");
                          ("message", JStr "Order created successfully")] |} |},
       {| Mock.available_stock := Mock.available_stock s - 1;
          Mock.order_count := Mock.order_count s + 1;
          Mock.successful_orders := Mock.successful_orders s + 1 |})
    else
      (if strikes c AtSend then Raise OSError
       else Ok {| assigned := Some (order_id_of (Mock.order_count s + 1));
                  reply :=
                    {| status_code := 409; headers := json_headers;
                       body := Some
                         [("error", JStr "INSUFFICIENT_STOCK");
                          ("message", JStr "Insufficient stock for the requested items")] |} |},
       {| Mock.available_stock := Mock.available_stock s;
          Mock.order_count := Mock.order_count s + 1;
          Mock.successful_orders := Mock.successful_orders s |}).
Proof.
  intros Hpath.
  unfold Mock.do_POST, Mock.with_stock_lock. rewrite Hpath, String.eqb_refl.
  unfold send. run_monad.
  rewrite Z.gtb_ltb.
  destruct (0 <? Mock.available_stock s); destruct (strikes c AtSend); reflexivity.
Qed.

(** X8: when the response to an order call cannot be written, the handler
    raises, but the order has been processed all the same: the attempt is
    counted, a unit of stock is sold if there was one (a failure counted if
    not), and on the enhanced server the sample is recorded and the request
    has left. *)
Theorem lost_response_still_consumes_stock (c : call) :
  path c = ORDERS_PATH ->
  fault c = Some AtSend ->
  (forall s : Enhanced.state,
     let s' := snd (Enhanced.do_POST c s) in
     fst (Enhanced.do_POST c s) = Raise OSError /\
     Enhanced.order_count s' = Enhanced.order_count s + 1 /\
     (0 < Enhanced.available_stock s ->
        Enhanced.available_stock s' = Enhanced.available_stock s - 1 /\
        Enhanced.successful_orders s' = Enhanced.successful_orders s + 1) /\
     (Enhanced.available_stock s <= 0 ->
        Enhanced.available_stock s' = Enhanced.available_stock s /\
        Enhanced.failed_orders s' = Enhanced.failed_orders s + 1) /\
     Enhanced.response_times s' =
       Enhanced.response_times s ++ [Enhanced.response_time_of c] /\
     Enhanced.concurrent_requests s' = Enhanced.concurrent_requests s) /\
  (forall s : Mock.state,
     let s' := snd (Mock.do_POST c s) in
     fst (Mock.do_POST c s) = Raise OSError /\
     Mock.order_count s' = Mock.order_count s + 1 /\
     (0 < Mock.available_stock s ->
        Mock.available_stock s' = Mock.available_stock s - 1 /\
        Mock.successful_orders s' = Mock.successful_orders s + 1) /\
     (Mock.available_stock s <= 0 ->
        Mock.available_stock s' = Mock.available_stock s /\
        Mock.successful_orders s' = Mock.successful_orders s)).
Proof.
  intros Hpath Hfault.
  assert (Hsend : strikes c AtSend = true) by (unfold strikes; rewrite Hfault; reflexivity).
  assert (Hsleep : strikes c AtSleep = false) by (unfold strikes; rewrite Hfault; reflexivity).
  assert (Hprint : strikes c AtPrint = false) by (unfold strikes; rewrite Hfault; reflexivity).
  split; intros s; cbv zeta.
  - destruct (TraceFacts.do_POST_tracker c s) as [Htr _].
    rewrite (enhanced_do_POST_orders c s Hpath Hsleep) in *.
    destruct (Samples.place_order_returns c
                (Enhanced.perform Enhanced.AEnter s) Hprint) as [[[oid resp] code] Hr].
    rewrite Hr, Hsend in *. cbn [fst snd] in *.
    destruct (EnhancedCounting.placed_state c s) as (P1 & P2 & P3 & P4).
    split; [reflexivity|]. split; [exact P1|].
    split; [intros H; destruct (P2 H) as (Q1 & Q2 & _); auto|].
    split; [intros H; destruct (P3 H) as (Q1 & _ & Q3); auto|].
    split; [exact P4 | exact Htr].
  - rewrite (mock_do_POST_orders c s Hpath), Hsend.
    destruct (Z.ltb_spec 0 (Mock.available_stock s)); cbn [fst snd];
      repeat split; try reflexivity; intros; lia.
Qed.

Lemma lost_response_still_consumes_stock_witness :
  let c := {| path := ORDERS_PATH; request_start := fzero; timestamp := 0;
              print_time := fzero; finish_time := fzero; fault := Some AtSend |} in
  path c = ORDERS_PATH /\ fault c = Some AtSend /\
  Mock.do_POST c (Mock.init 1) =
    (Raise OSError,
     {| Mock.available_stock := 0; Mock.order_count := 1;
        Mock.successful_orders := 1 |}).
Proof.
  cbv zeta. split; [reflexivity|]. split; [reflexivity|].
  match goal with
  | |- Mock.do_POST ?c ?s = _ =>
      pose proof (proj2 (lost_response_still_consumes_stock c eq_refl eq_refl) s) as H
  end.
  cbv zeta in H. destruct H as (H1 & _).
  rewrite (surjective_pairing (Mock.do_POST _ _)), H1. reflexivity.
Defined.

(** X9: a console that raises on the progress line matters only at every
    hundredth success.  An order call armed with that fault is answered as
    usual when there is no stock or the success is not a hundredth one;
    when it is, the handler raises after the sale: the unit is sold and
    counted and its timestamp kept, but no sample is recorded, no line is
    printed, and the request still leaves. *)
Theorem progress_print_fault (c : call) (s : Enhanced.state) :
  path c = ORDERS_PATH ->
  fault c = Some AtPrint ->
  let r := fst (Enhanced.do_POST c s) in
  let s' := snd (Enhanced.do_POST c s) in
  (Enhanced.available_stock s <= 0 -> is_rejected r = true) /\
  (0 < Enhanced.available_stock s ->
   (Enhanced.successful_orders s + 1) mod 100 <> 0 ->
   is_confirmed r = true) /\
  (0 < Enhanced.available_stock s ->
   (Enhanced.successful_orders s + 1) mod 100 = 0 ->
   r = Raise OSError /\
   Enhanced.order_count s' = Enhanced.order_count s + 1 /\
   Enhanced.available_stock s' = Enhanced.available_stock s - 1 /\
   Enhanced.successful_orders s' = Enhanced.successful_orders s + 1 /\
   Enhanced.order_timestamps s' = Enhanced.order_timestamps s ++ [timestamp c] /\
   Enhanced.response_times s' = Enhanced.response_times s /\
   Enhanced.console s' = Enhanced.console s /\
   Enhanced.concurrent_requests s' = Enhanced.concurrent_requests s).
Proof.
  intros Hpath Hfault. cbv zeta.
  assert (Hsend : strikes c AtSend = false) by (unfold strikes; rewrite Hfault; reflexivity).
  assert (Hsleep : strikes c AtSleep = false) by (unfold strikes; rewrite Hfault; reflexivity).
  assert (Hprint : strikes c AtPrint = true) by (unfold strikes; rewrite Hfault; reflexivity).
  destruct (TraceFacts.do_POST_tracker c s) as [Htr _].
  rewrite (enhanced_do_POST_orders c s Hpath Hsleep) in *.
  destruct (perform_enter s) as (_ & _ & E1 & E2 & E3 & E4 & E5).
  destruct (TraceFacts.perform_enter_log s) as (E6 & E7 & _).
  set (s1 := Enhanced.perform Enhanced.AEnter s) in *.
  split; [|split].
  - intros Hnone.
    rewrite place_order_rejected by (rewrite E1; exact Hnone).
    rewrite Hsend. reflexivity.
  - intros Hpos Hdue.
    rewrite (proj2 (place_order_result c s1))
      by (rewrite ?E1, ?E3; assumption).
    rewrite Hsend. reflexivity.
  - intros Hpos Hdue.
    rewrite (proj1 (place_order_result c s1)) in *
      by (rewrite ?E1, ?E3; assumption).
    cbn [fst snd] in *.
    change (Enhanced.exec [Enhanced.AEnter; Enhanced.APlace c; Enhanced.ALeave] s)
      with (Enhanced.perform Enhanced.ALeave
              (Enhanced.perform (Enhanced.APlace c) s1)) in *.
    destruct (place_order_state c s1) as (P1 & P2 & _ & _ & _ & P6 & _).
    destruct (place_order_log c s1) as (_ & L).
    rewrite E1 in P2, L.
    destruct (P2 Hpos) as (Q1 & Q2 & _).
    destruct (L Hpos) as (L1 & _ & L3 & _).
    fold (Enhanced.perform (Enhanced.APlace c) s1) in P1, P6, Q1, Q2, L1, L3.
    split; [reflexivity|].
    set (s2 := Enhanced.perform (Enhanced.APlace c) s1) in *.
    destruct (perform_leave s2) as (_ & _ & V1 & V2 & V3 & _ & V5).
    assert (V6 : Enhanced.order_timestamps (Enhanced.perform Enhanced.ALeave s2) =
                 Enhanced.order_timestamps s2) by reflexivity.
    assert (V7 : Enhanced.console (Enhanced.perform Enhanced.ALeave s2) =
                 Enhanced.console s2) by reflexivity.
    rewrite V1, V2, V3, V5, V6, V7.
    rewrite P1, Q1, Q2, L1, (L3 Hprint), P6, E2, E3, E5, E6, E7.
    repeat split. exact Htr.
Qed.

Lemma progress_print_fault_witness :
  let c := {| path := ORDERS_PATH; request_start := fzero; timestamp := 0;
              print_time := fzero; finish_time := fzero; fault := Some AtPrint |} in
  path c = ORDERS_PATH /\ fault c = Some AtPrint /\
  Enhanced.available_stock (Enhanced.init 0 fzero) <= 0 /\
  is_rejected (fst (Enhanced.do_POST c (Enhanced.init 0 fzero))) = true.
Proof.
  cbv zeta. split; [reflexivity|]. split; [reflexivity|].
  assert (H0 : Enhanced.available_stock (Enhanced.init 0 fzero) <= 0) by (simpl; lia).
  split; [exact H0|].
  match goal with
  | |- is_rejected (fst (Enhanced.do_POST ?c ?s)) = true =>
      exact (proj1 (progress_print_fault c s eq_refl eq_refl) H0)
  end.
Defined.

End HandlerFacts.

(** ** Runs of served calls *)

Module RunFacts.
Import EnhancedFacts EnhancedInvariants HandlerFacts.

(** The globals of mock_server.py after any call. *)
Lemma mock_do_POST_state (c : call) (s : Mock.state) :
  snd (Mock.do_POST c s) =
    if is_order_call c then
      if 0 <? Mock.available_stock s then
        {| Mock.available_stock := Mock.available_stock s - 1;
           Mock.order_count := Mock.order_count s + 1;
           Mock.successful_orders := Mock.successful_orders s + 1 |}
      else
        {| Mock.available_stock := Mock.available_stock s;
           Mock.order_count := Mock.order_count s + 1;
           Mock.successful_orders := Mock.successful_orders s |}
    else s.
Proof.
  unfold is_order_call.
  destruct (String.eqb_spec (path c) ORDERS_PATH) as [Hp | Hp].
  - rewrite (mock_do_POST_orders c s Hp).
    destruct (0 <? Mock.available_stock s); reflexivity.
  - rewrite (mock_do_POST_unknown c s Hp). reflexivity.
Qed.

Lemma mock_serve_invariant (S : Z) (cs : list call) :
  let s := snd (serve Mock.do_POST cs (Mock.init S)) in
  Mock.available_stock s = S - Mock.successful_orders s /\
  0 <= Mock.successful_orders s <= Mock.order_count s /\
  (0 <= S -> 0 <= Mock.available_stock s).
Proof.
  cbv zeta.
  apply (serve_invariant Mock.do_POST (fun _ => True)
           (fun s => Mock.available_stock s = S - Mock.successful_orders s /\
                     0 <= Mock.successful_orders s <= Mock.order_count s /\
                     (0 <= S -> 0 <= Mock.available_stock s))).
  - intros c s _ (H1 & H2 & H3). rewrite mock_do_POST_state.
    destruct (is_order_call c); [|auto].
    destruct (Z.ltb_spec 0 (Mock.available_stock s)); simpl; repeat split; lia.
  - apply Forall_forall. auto.
  - simpl. repeat split; lia.
Qed.

(** X10: the ledger of mock_server.py keeps its own invariant through any
    list of POSTs (any paths, any faults): the stock is the initial stock
    minus the successful orders, the successful orders never exceed the
    orders counted (so the failed count printed at shutdown is never
    negative), and with a non-negative initial stock the stock is never
    negative, that is, never more units are sold than there were. *)
Theorem mock_ledger_invariant (S : Z) (cs : list call) :
  let s := snd (serve Mock.do_POST cs (Mock.init S)) in
  Mock.available_stock s = S - Mock.successful_orders s /\
  0 <= Mock.successful_orders s <= Mock.order_count s /\
  0 <= Mock.failed s /\
  (0 <= S -> 0 <= Mock.available_stock s <= S).
Proof.
  cbv zeta. destruct (mock_serve_invariant S cs) as (H1 & H2 & H3).
  unfold Mock.failed.
  repeat split; try lia; intros HS; specialize (H3 HS); lia.
Qed.

Section Tally.
(** Any handler whose counters move with its replies. *)
Context {St : Type} (handler : call -> M St outcome).
Context (orders successes failures : St -> Z).

Hypothesis step : forall c s,
  undisturbed c ->
  successes (snd (handler c s)) =
    successes s + (if is_confirmed (fst (handler c s)) then 1 else 0) /\
  failures (snd (handler c s)) =
    failures s + (if is_rejected (fst (handler c s)) then 1 else 0) /\
  orders (snd (handler c s)) = orders s + (if is_order_call c then 1 else 0) /\
  is_not_found (fst (handler c s)) = negb (is_order_call c).

Lemma serve_tally (cs : list call) (s : St) :
  Forall undisturbed cs ->
  successes (snd (serve handler cs s)) =
    successes s + count is_confirmed (fst (serve handler cs s)) /\
  failures (snd (serve handler cs s)) =
    failures s + count is_rejected (fst (serve handler cs s)) /\
  orders (snd (serve handler cs s)) = orders s + count is_order_call cs /\
  count is_not_found (fst (serve handler cs s)) = len cs - count is_order_call cs.
Proof.
  revert s; induction cs as [|c cs IH]; intros s Hcs.
  - unfold count, len; simpl. lia.
  - inversion Hcs as [|? ? Hc Hrest]; subst.
    rewrite serve_fst_cons, serve_snd_cons, !count_cons, len_cons.
    destruct (step c s Hc) as (H1 & H2 & H3 & H4).
    destruct (IH (snd (handler c s)) Hrest) as (I1 & I2 & I3 & I4).
    rewrite I1, I2, I3, I4, H1, H2, H3, H4.
    destruct (is_order_call c); cbn [negb];
      destruct (is_confirmed (fst (handler c s)));
      destruct (is_rejected (fst (handler c s))); lia.
Qed.

End Tally.

Lemma undisturbed_never_strikes (c : call) (p : fault_point) :
  undisturbed c -> strikes c p = false.
Proof. intros H. unfold strikes. rewrite H. reflexivity. Qed.

Lemma enhanced_step_tally (c : call) (s : Enhanced.state) :
  undisturbed c ->
  Enhanced.successful_orders (snd (Enhanced.do_POST c s)) =
    Enhanced.successful_orders s +
    (if is_confirmed (fst (Enhanced.do_POST c s)) then 1 else 0) /\
  Enhanced.failed_orders (snd (Enhanced.do_POST c s)) =
    Enhanced.failed_orders s +
    (if is_rejected (fst (Enhanced.do_POST c s)) then 1 else 0) /\
  Enhanced.order_count (snd (Enhanced.do_POST c s)) =
    Enhanced.order_count s + (if is_order_call c then 1 else 0) /\
  is_not_found (fst (Enhanced.do_POST c s)) = negb (is_order_call c).
Proof.
  intros Hc. unfold is_order_call.
  destruct (String.eqb_spec (path c) ORDERS_PATH) as [Hp | Hp].
  - rewrite (do_POST_placed c s (conj Hp Hc)).
    destruct (EnhancedCounting.placed_state c s) as (P1 & P2 & P3 & _).
    cbn [fst snd]. rewrite P1.
    destruct (Z.ltb_spec 0 (Enhanced.available_stock s)) as [Hpos | Hnone].
    + destruct (P2 Hpos) as (_ & Q2 & Q3). rewrite Q2, Q3.
      repeat split; try reflexivity; simpl; lia.
    + destruct (P3 Hnone) as (_ & Q2 & Q3). rewrite Q2, Q3.
      repeat split; try reflexivity; simpl; lia.
  - rewrite (enhanced_do_POST_unknown c s Hp).
    rewrite (undisturbed_never_strikes c AtSend Hc).
    cbn. repeat split; lia.
Qed.

Lemma mock_step_tally (c : call) (s : Mock.state) :
  undisturbed c ->
  Mock.successful_orders (snd (Mock.do_POST c s)) =
    Mock.successful_orders s +
    (if is_confirmed (fst (Mock.do_POST c s)) then 1 else 0) /\
  Mock.failed (snd (Mock.do_POST c s)) =
    Mock.failed s + (if is_rejected (fst (Mock.do_POST c s)) then 1 else 0) /\
  Mock.order_count (snd (Mock.do_POST c s)) =
    Mock.order_count s + (if is_order_call c then 1 else 0) /\
  is_not_found (fst (Mock.do_POST c s)) = negb (is_order_call c).
Proof.
  intros Hc. unfold is_order_call, Mock.failed.
  destruct (String.eqb_spec (path c) ORDERS_PATH) as [Hp | Hp].
  - rewrite (mock_do_POST_orders c s Hp).
    rewrite (undisturbed_never_strikes c AtSend Hc).
    destruct (0 <? Mock.available_stock s); cbn; repeat split; lia.
  - rewrite (mock_do_POST_unknown c s Hp).
    rewrite (undisturbed_never_strikes c AtSend Hc).
    cbn. repeat split; lia.
Qed.

(** X11: the counters tally the responses.  After any list of POSTs that
    the environment does not disturb (orders and other paths mixed), on
    both servers [successful_orders] is the number of 201 CONFIRMED
    replies, the failed count ([failed_orders]; for mock_server.py
    [order_count - successful_orders]) is the number of 409 replies,
    [order_count] is the number of calls to /api/v1/orders, and the 404
    replies are the remaining calls. *)
Theorem counters_tally_responses (S : Z) (started : float) (cs : list call) :
  Forall undisturbed cs ->
  let enhanced := serve Enhanced.do_POST cs (Enhanced.init S started) in
  let mock := serve Mock.do_POST cs (Mock.init S) in
  (Enhanced.successful_orders (snd enhanced) = count is_confirmed (fst enhanced) /\
   Enhanced.failed_orders (snd enhanced) = count is_rejected (fst enhanced) /\
   Enhanced.order_count (snd enhanced) = count is_order_call cs /\
   count is_not_found (fst enhanced) = len cs - count is_order_call cs) /\
  (Mock.successful_orders (snd mock) = count is_confirmed (fst mock) /\
   Mock.failed (snd mock) = count is_rejected (fst mock) /\
   Mock.order_count (snd mock) = count is_order_call cs /\
   count is_not_found (fst mock) = len cs - count is_order_call cs).
Proof.
  intros Hcs. cbv zeta. split.
  - destruct (serve_tally Enhanced.do_POST Enhanced.order_count
                Enhanced.successful_orders Enhanced.failed_orders
                enhanced_step_tally cs (Enhanced.init S started) Hcs)
      as (H1 & H2 & H3 & H4).
    rewrite H1, H2, H3, H4. simpl. repeat split; lia.
  - destruct (serve_tally Mock.do_POST Mock.order_count
                Mock.successful_orders Mock.failed
                mock_step_tally cs (Mock.init S) Hcs)
      as (H1 & H2 & H3 & H4).
    rewrite H1, H2, H3, H4. unfold Mock.failed. simpl. repeat split; lia.
Qed.

Lemma counters_tally_responses_witness :
  let other := {| path := "/health"; request_start := fzero; timestamp := 0;
                  print_time := fzero; finish_time := fzero; fault := None |} in
  let cs := [sample_order; other; sample_order] in
  Forall undisturbed cs /\
  Enhanced.order_count (snd (serve Enhanced.do_POST cs (Enhanced.init 1 fzero))) = 2 /\
  count is_not_found (fst (serve Enhanced.do_POST cs (Enhanced.init 1 fzero))) = 1.
Proof.
  cbv zeta.
  match goal with
  | |- Forall undisturbed ?cs /\ _ =>
      assert (H : Forall undisturbed cs) by (repeat constructor);
      split; [exact H|];
      destruct (proj1 (counters_tally_responses 1 fzero cs H)) as (_ & _ & H3 & H4)
  end.
  split; [exact H3 | exact H4].
Defined.

(** X12: with no stock to start with (zero, or a negative configured
    value) every order call is answered 409 on both servers, nothing is
    ever sold and the stock stays at its initial value; the enhanced server
    counts every call as a failure. *)
Theorem no_stock_rejects_everything (S : Z) (started : float) (cs : list call) :
  S <= 0 ->
  Forall places_order cs ->
  let enhanced := serve Enhanced.do_POST cs (Enhanced.init S started) in
  let mock := serve Mock.do_POST cs (Mock.init S) in
  Forall (fun r => is_rejected r = true) (fst enhanced) /\
  Forall (fun r => is_rejected r = true) (fst mock) /\
  Enhanced.available_stock (snd enhanced) = S /\
  Enhanced.successful_orders (snd enhanced) = 0 /\
  Enhanced.failed_orders (snd enhanced) = len cs /\
  Mock.available_stock (snd mock) = S /\
  Mock.successful_orders (snd mock) = 0.
Proof.
  intros HS Hcs. cbv zeta.
  assert (He : forall cs s,
            Forall places_order cs -> Enhanced.available_stock s <= 0 ->
            Forall (fun r => is_rejected r = true) (fst (serve Enhanced.do_POST cs s)) /\
            Enhanced.available_stock (snd (serve Enhanced.do_POST cs s)) =
              Enhanced.available_stock s /\
            Enhanced.successful_orders (snd (serve Enhanced.do_POST cs s)) =
              Enhanced.successful_orders s /\
            Enhanced.failed_orders (snd (serve Enhanced.do_POST cs s)) =
              Enhanced.failed_orders s + len cs).
  { clear. induction cs as [|c cs IH]; intros s Hcs Hs.
    - simpl. unfold len; simpl. repeat split; auto; lia.
    - inversion Hcs as [|? ? Hc Hrest]; subst.
      rewrite serve_fst_cons, serve_snd_cons, len_cons.
      destruct (EnhancedCounting.enhanced_turns_away c s Hc Hs) as (_ & T2 & T3).
      assert (Hstep : Enhanced.successful_orders (snd (Enhanced.do_POST c s)) =
                        Enhanced.successful_orders s /\
                      Enhanced.failed_orders (snd (Enhanced.do_POST c s)) =
                        Enhanced.failed_orders s + 1).
      { rewrite (do_POST_placed c s Hc). cbn [snd].
        destruct (EnhancedCounting.placed_state c s) as (_ & _ & P3 & _).
        destruct (P3 Hs) as (_ & Q2 & Q3). auto. }
      destruct Hstep as [U1 U2].
      destruct (IH (snd (Enhanced.do_POST c s)) Hrest) as (I1 & I2 & I3 & I4); [lia|].
      rewrite I2, I3, I4, T3, U1, U2.
      repeat split; try lia. constructor; assumption. }
  assert (Hm : forall cs s,
            Forall places_order cs -> Mock.available_stock s <= 0 ->
            Forall (fun r => is_rejected r = true) (fst (serve Mock.do_POST cs s)) /\
            Mock.available_stock (snd (serve Mock.do_POST cs s)) =
              Mock.available_stock s /\
            Mock.successful_orders (snd (serve Mock.do_POST cs s)) =
              Mock.successful_orders s).
  { clear. induction cs as [|c cs IH]; intros s Hcs Hs.
    - simpl. auto.
    - inversion Hcs as [|? ? Hc Hrest]; subst.
      rewrite serve_fst_cons, serve_snd_cons.
      destruct (MockFacts.mock_turns_away c s Hc Hs) as (_ & T2 & T3).
      assert (U1 : Mock.successful_orders (snd (Mock.do_POST c s)) =
                   Mock.successful_orders s).
      { rewrite mock_do_POST_state.
        destruct (is_order_call c); [|reflexivity].
        destruct (Z.ltb_spec 0 (Mock.available_stock s)); [lia | reflexivity]. }
      destruct (IH (snd (Mock.do_POST c s)) Hrest) as (I1 & I2 & I3); [lia|].
      rewrite I2, I3, T3, U1. repeat split. constructor; assumption. }
  destruct (He cs (Enhanced.init S started) Hcs HS) as (E1 & E2 & E3 & E4).
  destruct (Hm cs (Mock.init S) Hcs HS) as (M1 & M2 & M3).
  repeat split; assumption.
Qed.

Lemma no_stock_rejects_everything_witness :
  0 <= 0 /\
  Forall places_order [sample_order; sample_order] /\
  Forall (fun r => is_rejected r = true)
    (fst (serve Mock.do_POST [sample_order; sample_order] (Mock.init 0))).
Proof.
  assert (H0 : 0 <= 0) by lia.
  assert (H2 : Forall places_order [sample_order; sample_order])
    by (repeat constructor).
  split; [exact H0|]. split; [exact H2|].
  exact (proj1 (proj2 (no_stock_rejects_everything 0 fzero
                         [sample_order; sample_order] H0 H2))).
Defined.

(** The [remainingStock] of the replies to order calls served from a stock
    of [a]. *)
Lemma serve_remaining (cs : list call) (s : Enhanced.state) :
  Forall places_order cs ->
  map remaining_of (fst (serve Enhanced.do_POST cs s)) =
  map (fun k => if Z.of_nat k <=? Enhanced.available_stock s
                then Some (JInt (Enhanced.available_stock s - Z.of_nat k))
                else None)
      (seq 1 (List.length cs)).
Proof.
  revert s; induction cs as [|c cs IH]; intros s Hcs; [reflexivity|].
  inversion Hcs as [|? ? Hc Hrest]; subst.
  rewrite serve_fst_cons. cbn [map List.length seq].
  rewrite (IH _ Hrest), <- (seq_shift (List.length cs) 1), map_map.
  rewrite (do_POST_placed c s Hc). cbn [fst snd].
  destruct (EnhancedCounting.placed_state c s) as (_ & P2 & P3 & _).
  destruct (Z.ltb_spec 0 (Enhanced.available_stock s)) as [Hpos | Hnone].
  - destruct (P2 Hpos) as (Q1 & _). rewrite Q1. f_equal.
    + cbn. destruct (Z.leb_spec 1 (Enhanced.available_stock s)); [reflexivity | lia].
    + apply map_ext. intros k.
      destruct (Z.leb_spec (Z.of_nat k) (Enhanced.available_stock s - 1));
        destruct (Z.leb_spec (Z.of_nat (Datatypes.S k)) (Enhanced.available_stock s));
        try lia; do 2 f_equal; lia.
  - destruct (P3 Hnone) as (Q1 & _). rewrite Q1. f_equal.
    + cbn. destruct (Z.leb_spec 1 (Enhanced.available_stock s)); [lia | reflexivity].
    + apply map_ext_in. intros k Hk. apply in_seq in Hk.
      destruct (Z.leb_spec (Z.of_nat k) (Enhanced.available_stock s));
        destruct (Z.leb_spec (Z.of_nat (Datatypes.S k)) (Enhanced.available_stock s));
        try lia; reflexivity.
Qed.

(** X13: the [remainingStock] in a 201 reply of enhanced_mock_server.py is
    the stock right after that order, and served from [INITIAL_STOCK = S]
    the replies count it down: the k-th order call shows [S - k] while
    [k <= S], and the calls after that (the 409 replies) show none. *)
Theorem remaining_stock_counts_down (S : Z) (started : float) (cs : list call) :
  Forall places_order cs ->
  map remaining_of (fst (serve Enhanced.do_POST cs (Enhanced.init S started))) =
    map (fun k => if Z.of_nat k <=? S then Some (JInt (S - Z.of_nat k)) else None)
        (seq 1 (List.length cs)) /\
  (forall (c : call) (s : Enhanced.state),
     places_order c ->
     0 < Enhanced.available_stock s ->
     remaining_of (fst (Enhanced.do_POST c s)) =
       Some (JInt (Enhanced.available_stock (snd (Enhanced.do_POST c s))))).
Proof.
  intros Hcs. split.
  - apply (serve_remaining cs (Enhanced.init S started) Hcs).
  - intros c s Hc Hpos. rewrite (do_POST_placed c s Hc). cbn [fst snd].
    destruct (EnhancedCounting.placed_state c s) as (_ & P2 & _).
    destruct (P2 Hpos) as (Q1 & _). rewrite Q1.
    destruct (Z.ltb_spec 0 (Enhanced.available_stock s)); [reflexivity | lia].
Qed.

Lemma remaining_stock_counts_down_witness :
  Forall places_order [sample_order; sample_order; sample_order] /\
  map remaining_of
    (fst (serve Enhanced.do_POST [sample_order; sample_order; sample_order]
            (Enhanced.init 2 fzero))) =
  [Some (JInt 1); Some (JInt 0); None].
Proof.
  assert (H3 : Forall places_order [sample_order; sample_order; sample_order])
    by (repeat constructor).
  split; [exact H3|].
  exact (proj1 (remaining_stock_counts_down 2 fzero
                  [sample_order; sample_order; sample_order] H3)).
Defined.

(** The logs after a call that places an order. *)
Lemma placed_logs (c : call) (s : Enhanced.state) :
  let s' := Enhanced.exec
              [Enhanced.AEnter; Enhanced.APlace c;
               Enhanced.ARecord (Enhanced.response_time_of c); Enhanced.ALeave] s in
  (0 < Enhanced.available_stock s ->
     Enhanced.order_timestamps s' = Enhanced.order_timestamps s ++ [timestamp c]) /\
  (Enhanced.available_stock s <= 0 ->
     Enhanced.order_timestamps s' = Enhanced.order_timestamps s).
Proof.
  cbv zeta.
  change (Enhanced.exec
            [Enhanced.AEnter; Enhanced.APlace c;
             Enhanced.ARecord (Enhanced.response_time_of c); Enhanced.ALeave] s)
    with (Enhanced.perform Enhanced.ALeave
            (Enhanced.perform (Enhanced.ARecord (Enhanced.response_time_of c))
               (Enhanced.perform (Enhanced.APlace c)
                  (Enhanced.perform Enhanced.AEnter s)))).
  destruct (perform_enter s) as (_ & _ & E1 & _).
  destruct (TraceFacts.perform_enter_log s) as (E6 & _).
  set (s1 := Enhanced.perform Enhanced.AEnter s) in *.
  destruct (AttemptLog.place_order_log c s1) as (Lout & Lsold).
  fold (Enhanced.perform (Enhanced.APlace c) s1) in Lout, Lsold.
  rewrite E1 in Lout, Lsold. rewrite E6 in Lout, Lsold.
  split; intros H.
  - destruct (Lsold H) as (L1 & _). exact L1.
  - destruct (Lout H) as (L1 & _). exact L1.
Qed.

Lemma served_in_order (cs : list call) (s : Enhanced.state) :
  Forall places_order cs ->
  0 <= Enhanced.available_stock s ->
  let n := Z.to_nat (Enhanced.available_stock s) in
  let run := serve Enhanced.do_POST cs s in
  Forall (fun r => is_confirmed r = true) (firstn n (fst run)) /\
  Forall (fun r => is_rejected r = true) (skipn n (fst run)) /\
  Enhanced.order_timestamps (snd run) =
    Enhanced.order_timestamps s ++ map timestamp (firstn n cs) /\
  Enhanced.response_times (snd run) =
    Enhanced.response_times s ++ map Enhanced.response_time_of cs.
Proof.
  revert s; induction cs as [|c cs IH]; intros s Hcs Hs; cbv zeta.
  - cbn [serve fst snd map]. rewrite !firstn_nil, skipn_nil. cbn [map].
    rewrite !List.app_nil_r. auto.
  - inversion Hcs as [|? ? Hc Hrest]; subst.
    rewrite serve_fst_cons, serve_snd_cons.
    destruct (Z.lt_ge_cases 0 (Enhanced.available_stock s)) as [Hpos | Hnone].
    + destruct (EnhancedCounting.enhanced_sells c s Hc Hpos) as (T1 & _ & T3).
      destruct (IH (snd (Enhanced.do_POST c s)) Hrest) as (I1 & I2 & I3 & I4); [lia|].
      rewrite T3 in I1, I2, I3.
      assert (Hn : Z.to_nat (Enhanced.available_stock s) =
                   Datatypes.S (Z.to_nat (Enhanced.available_stock s - 1))) by lia.
      rewrite Hn. cbn [firstn skipn map].
      destruct (EnhancedCounting.placed_state c s) as (_ & _ & _ & P4).
      destruct (placed_logs c s) as (G1 & _).
      assert (Hsnd : snd (Enhanced.do_POST c s) =
                     Enhanced.exec
                       [Enhanced.AEnter; Enhanced.APlace c;
                        Enhanced.ARecord (Enhanced.response_time_of c);
                        Enhanced.ALeave] s)
        by (rewrite (do_POST_placed c s Hc); reflexivity).
      rewrite <- Hsnd in P4, G1.
      rewrite I3, I4, P4, (G1 Hpos), <- !List.app_assoc.
      split; [constructor; assumption|]. split; [exact I2|]. split; reflexivity.
    + assert (H0 : Enhanced.available_stock s = 0) by lia.
      destruct (EnhancedCounting.enhanced_turns_away c s Hc Hnone) as (_ & T2 & T3).
      destruct (IH (snd (Enhanced.do_POST c s)) Hrest) as (I1 & I2 & I3 & I4); [lia|].
      rewrite T3, H0 in I1, I2, I3. rewrite H0.
      change (Z.to_nat 0) with 0%nat in *. cbn [firstn skipn map] in *.
      destruct (EnhancedCounting.placed_state c s) as (_ & _ & _ & P4).
      destruct (placed_logs c s) as (_ & G2).
      assert (Hsnd : snd (Enhanced.do_POST c s) =
                     Enhanced.exec
                       [Enhanced.AEnter; Enhanced.APlace c;
                        Enhanced.ARecord (Enhanced.response_time_of c);
                        Enhanced.ALeave] s)
        by (rewrite (do_POST_placed c s Hc); reflexivity).
      rewrite <- Hsnd in P4, G2.
      rewrite I3, I4, P4, (G2 Hnone), <- !List.app_assoc.
      split; [constructor|]. split; [constructor; assumption|]. split; reflexivity.
Qed.

(** X14: first come, first served.  Of the order calls served by
    enhanced_mock_server.py from a stock of [S >= 0], exactly the first [S]
    are confirmed and all later ones rejected: no 201 ever follows a 409.
    The order timestamps are those of the first [S] calls, and the
    response-time samples are those of all the calls, in the order
    served. *)
Theorem first_come_first_served (S : Z) (started : float) (cs : list call) :
  0 <= S ->
  Forall places_order cs ->
  let run := serve Enhanced.do_POST cs (Enhanced.init S started) in
  Forall (fun r => is_confirmed r = true) (firstn (Z.to_nat S) (fst run)) /\
  Forall (fun r => is_rejected r = true) (skipn (Z.to_nat S) (fst run)) /\
  Enhanced.order_timestamps (snd run) = map timestamp (firstn (Z.to_nat S) cs) /\
  Enhanced.response_times (snd run) = map Enhanced.response_time_of cs.
Proof.
  intros HS Hcs.
  exact (served_in_order cs (Enhanced.init S started) Hcs HS).
Qed.

Lemma first_come_first_served_witness :
  0 <= 1 /\
  Forall places_order [sample_order; sample_order] /\
  Forall (fun r => is_rejected r = true)
    (skipn 1 (fst (serve Enhanced.do_POST [sample_order; sample_order]
                     (Enhanced.init 1 fzero)))).
Proof.
  assert (H1 : 0 <= 1) by lia.
  assert (H2 : Forall places_order [sample_order; sample_order])
    by (repeat constructor).
  split; [exact H1|]. split; [exact H2|].
  exact (proj1 (proj2 (first_come_first_served 1 fzero
                         [sample_order; sample_order] H1 H2))).
Defined.

End RunFacts.

(** ** The GET handlers and the shutdown summary *)

Module ReadFacts.
Import EnhancedFacts EnhancedInvariants.

Lemma prefix_append (p s : string) : String.prefix p (p ++ s) = true.
Proof.
  induction p as [|a p IH]; simpl.
  - destruct s; reflexivity.
  - destruct (ascii_dec a a) as [_ | Hne]; [exact IH | contradiction].
Qed.

Lemma inventory_is_not_metrics (suffix : string) :
  String.eqb (INVENTORY_PREFIX ++ suffix) "/metrics" = false.
Proof. reflexivity. Qed.


(** X16: every GET below /api/v1/inventory/products/, whatever follows
    the prefix, is answered 200 with the inventory.  On
    enhanced_mock_server.py it is balanced in every state reached from the
    initial globals: [reservedStock] is the number of successful orders and
    [availableStock + reservedStock] is the initial stock.  mock_server.py
    counts [reservedStock] from the literal 100: started with a stock of
    [S] it shows [100 - S] plus the successful orders, which is the number
    of successful orders when the stock is the script's 100. *)
Theorem inventory_is_balanced
  (S : Z) (started now : float) (tr : list Enhanced.action) (cs : list call)
  (suffix : string) :
  (let s := Enhanced.exec tr (Enhanced.init S started) in
   exists r doc,
     Enhanced.do_GET S (INVENTORY_PREFIX ++ suffix) now s = Ok r /\
     status_code r = 200 /\
     body r = Some doc /\
     lookup "initialStock" doc = Some (JInt S) /\
     lookup "availableStock" doc = Some (JInt (S - Enhanced.successful_orders s)) /\
     lookup "reservedStock" doc = Some (JInt (Enhanced.successful_orders s)) /\
     lookup "successfulOrders" doc = Some (JInt (Enhanced.successful_orders s)) /\
     lookup "failedOrders" doc = Some (JInt (Enhanced.failed_orders s)) /\
     lookup "totalOrders" doc =
       Some (JInt (Enhanced.successful_orders s + Enhanced.failed_orders s))) /\
  (let s := snd (serve Mock.do_POST cs (Mock.init S)) in
   let r := Mock.do_GET (INVENTORY_PREFIX ++ suffix) s in
   exists doc,
     status_code r = 200 /\
     body r = Some doc /\
     lookup "availableStock" doc = Some (JInt (S - Mock.successful_orders s)) /\
     lookup "reservedStock" doc =
       Some (JInt (100 - S + Mock.successful_orders s)) /\
     (S = 100 ->
      lookup "reservedStock" doc = Some (JInt (Mock.successful_orders s))) /\
     lookup "successfulOrders" doc = Some (JInt (Mock.successful_orders s)) /\
     lookup "totalOrders" doc = Some (JInt (Mock.order_count s))).
Proof.
  split; cbv zeta.
  - assert (H : Enhanced.ledger_consistent S
                  (Enhanced.exec tr (Enhanced.init S started))).
    { apply exec_invariant.
      - intros a s. apply perform_consistent.
      - split; simpl; lia. }
    destruct H as [Hstock Htotal].
    unfold Enhanced.do_GET.
    rewrite inventory_is_not_metrics, prefix_append.
    do 2 eexists. split; [reflexivity|]. split; [reflexivity|].
    split; [reflexivity|].
    unfold Enhanced.inventory. cbn [lookup String.eqb Ascii.eqb Bool.eqb].
    rewrite Hstock, Htotal.
    repeat split; do 2 f_equal; lia.
  - destruct (RunFacts.mock_serve_invariant S cs) as (H1 & _).
    unfold Mock.do_GET. rewrite prefix_append.
    eexists. split; [reflexivity|]. split; [reflexivity|].
    cbn [lookup String.eqb Ascii.eqb Bool.eqb].
    rewrite H1. repeat split; try intros ->; do 2 f_equal; lia.
Qed.

(** The inventory of mock_server.py as shipped, after one order. *)
Example mock_inventory_after_one_order :
  let s := snd (serve Mock.do_POST [sample_order] (Mock.init 100)) in
  exists doc,
    body (Mock.do_GET "/api/v1/inventory/products/xyz" s) = Some doc /\
    lookup "availableStock" doc = Some (JInt 99) /\
    lookup "reservedStock" doc = Some (JInt 1).
Proof. eexists. split; [vm_compute; reflexivity|]. split; reflexivity. Qed.

(** The running minimum and maximum are elements of the list. *)
Lemma fold_pick_in (pick : float -> float -> bool) (xs : list float) (x : float) :
  In (fold_left (fun m y => if pick m y then y else m) xs x) (x :: xs).
Proof.
  revert x; induction xs as [|y xs IH]; intros x; [left; reflexivity|].
  cbn [fold_left].
  destruct (IH (if pick x y then y else x)) as [H | H].
  - destruct (pick x y); [right; left | left]; exact H.
  - right. right. exact H.
Qed.


(** X17: once there are response-time samples, /metrics reports floats:
    [avg] is the sum of the samples divided by their number, [min] and
    [max] are each one of the recorded samples, and [count] is their
    (positive) number. *)
Theorem metrics_with_samples (S : Z) (now : float) (s : Enhanced.state) :
  Enhanced.response_times s <> [] ->
  exists doc average fastest slowest,
    Enhanced.metrics S now s = Ok doc /\
    lookup2 "responseTime" "avg" doc = Some (JFloat average) /\
    float_div_int (sum (Enhanced.response_times s))
                  (len (Enhanced.response_times s)) = Ok average /\
    lookup2 "responseTime" "min" doc = Some (JFloat fastest) /\
    In fastest (Enhanced.response_times s) /\
    lookup2 "responseTime" "max" doc = Some (JFloat slowest) /\
    In slowest (Enhanced.response_times s) /\
    lookup2 "responseTime" "count" doc =
      Some (JInt (len (Enhanced.response_times s))) /\
    0 < len (Enhanced.response_times s).
Proof.
  intros Hne. unfold Enhanced.metrics.
  destruct (Enhanced.response_times s) as [|x xs] eqn:E; [contradiction|].
  cbn [truthy]. unfold float_div_int. rewrite MetricsFacts.len_nonempty.
  cbn [rbind].
  assert (Hrate : exists rate,
    (if Enhanced.order_count s >? 0
     then q <-? int_truediv (Enhanced.successful_orders s) (Enhanced.order_count s) ;;
          Ok (JFloat (fmul q (float_of_int 100)))
     else Ok (JInt 0)) = Ok rate).
  { destruct (Z.gtb_spec (Enhanced.order_count s) 0) as [Hpos | Hnone].
    - unfold int_truediv.
      destruct (Z.eqb_spec (Enhanced.order_count s) 0) as [Hz | _]; [lia|].
      eexists; reflexivity.
    - eexists; reflexivity. }
  assert (Htps : exists tps,
    (if fpositive (fsub now (Enhanced.start_time s))
     then x <-? int_div_float (Enhanced.order_count s)
                  (fsub now (Enhanced.start_time s)) ;;
          Ok (JFloat x)
     else Ok (JInt 0)) = Ok tps).
  { destruct (fpositive (fsub now (Enhanced.start_time s))) eqn:Hpos.
    - unfold int_div_float. rewrite (fpositive_not_zero _ Hpos). eexists; reflexivity.
    - eexists; reflexivity. }
  destruct Hrate as [rate Er]. destruct Htps as [tps Et].
  cbv zeta. rewrite Er, Et. cbn [rbind min max].
  do 4 eexists. split; [reflexivity|].
  split; [reflexivity|]. split; [reflexivity|]. split; [reflexivity|].
  split; [apply (fold_pick_in (fun m y => flt y m))|].
  split; [reflexivity|].
  split; [apply (fold_pick_in (fun m y => flt m y))|].
  split; [reflexivity|].
  rewrite len_cons. pose proof (len_nonneg xs). lia.
Qed.

Lemma metrics_with_samples_witness :
  Enhanced.response_times sold_out <> [] /\
  exists doc,
    Enhanced.metrics 10 (float_of_int 60) sold_out = Ok doc /\
    lookup2 "responseTime" "count" doc = Some (JInt 15).
Proof.
  assert (Hne : Enhanced.response_times sold_out <> []) by discriminate.
  split; [exact Hne|].
  destruct (metrics_with_samples 10 (float_of_int 60) sold_out Hne)
    as (doc & a & f & sl & Hdoc & _ & _ & _ & _ & _ & _ & Hcount & _).
  exists doc. split; [exact Hdoc | exact Hcount].
Defined.


(** The summary after fifteen orders for ten units, on a console that
    breaks at the fourth print. *)
Example shutdown_on_a_broken_console :
  Enhanced.shutdown_summary (float_of_int 60) (Some 3%nat) sold_out [] =
    (Raise OSError,
     [Enhanced.FinalResults;
      Enhanced.TotalTime (float_of_int 60);
      Enhanced.TotalOrders 15]).
Proof. vm_compute. reflexivity. Qed.

End ReadFacts.
